(** * plot.py: load a loss table, draw it, save the image

    The program is a straight-line Python script:

      df = pd.read_csv("loss.csv", header=None, names=["Epoch", "Loss"])
      plt.figure(figsize=(8, 5))
      plt.plot(df["Epoch"], df["Loss"], label="Training Loss")
      plt.xlabel("Epoche")
      plt.ylabel("Loss (Cross-Entropy)")
      plt.title("Loss-Verlauf des Trainings")
      plt.legend()
      plt.grid(True)
      # plt.show()
      plt.savefig('my_plot.png')

    The script itself is embedded statement by statement ([loader],
    [renderer], [writer], [script]) in a state-and-exception monad.  What
    the statements do is decided by the two libraries they call.  Their code
    is not part of the repository, so the modules [pd] and [plt] below
    describe the behaviour of exactly the calls the script makes, for a
    fragment of inputs that is stated next to each definition; a run that
    leaves the fragment ends in [Unmodelled], about which nothing is said.
    Numbers are binary64 where pandas holds binary64: a cell is the
    rational its binary64 equals. *)

From Stdlib Require Import ZArith QArith Ascii String DecimalString.
From stdpp Require Import base option list gmap strings.

Close Scope Q_scope.
Open Scope string_scope.

(** ** Python runtime: outcomes of a statement *)

Inductive exn :=
  | FileNotFoundError (path : string)
  | PermissionError (path : string)
  | KeyError (key : string)
  | ValueError (msg : string)
  | ParserError
  | TypeError.

Inductive outcome (A : Type) :=
  | Done (a : A)
  | Raise (e : exn)
  | Unmodelled.
Arguments Done {A} a.
Arguments Raise {A} e.
Arguments Unmodelled {A}.

(** ** Data held by the libraries *)

(** A binary64 number.  [B64 q] is the binary64 that equals the rational
    [q].  [Conv q] is the binary64 the float converter of [read_csv] returns
    for a numeral of value [q] that it does not convert in one exact step
    (one written with more than 15 digits).  Which binary64 that is depends
    on how the converter gathers the digits and rounds on the way; it is not
    fixed here, and nothing is proved from it. *)
Inductive f64 :=
  | B64 (q : Q)
  | Conv (q : Q).

(** A pandas column.  In a [Float64] column [None] is NaN; [Object] cells
    are Python strings ([None] is NaN). *)
Inductive Series :=
  | Int64 (v : list Z)
  | Float64 (v : list (option f64))
  | Object (v : list (option string)).

Record DataFrame := {
  columns : list (string * Series);
  nrows : nat
}.

Inductive cell :=
  | CInt (z : Z)
  | CFloat (x : f64)
  | CStr (s : string)
  | CNaN.

Record Line2D := {
  xdata : Series;
  ydata : Series;
  label : string
}.

(** A figure with its single axes. *)
Record Figure := {
  figsize : Q * Q;
  lines : list Line2D;
  ax_xlabel : string;
  ax_ylabel : string;
  ax_title : string;
  ax_legend : option (list string);
  ax_grid : bool
}.

(** ** The world the script runs in *)

Inductive content :=
  | Text (s : string)
  | PNG (fig : Figure).

Record file := {
  readable : bool;
  writable : bool;
  data : content
}.

Inductive event :=
  | EvRead (path : string)
  | EvWrite (path : string)
  | EvShow.

(** [files] is the current working directory, [figs] the figures pyplot
    holds (the current one first), [trace] the externally visible effects
    so far, oldest first. *)
Record world := {
  files : gmap string file;
  cwd_writable : bool;
  figs : list Figure;
  trace : list event
}.

Definition set_files (fs : gmap string file) (w : world) : world :=
  {| files := fs; cwd_writable := cwd_writable w; figs := figs w; trace := trace w |}.
Definition set_figs (l : list Figure) (w : world) : world :=
  {| files := files w; cwd_writable := cwd_writable w; figs := l; trace := trace w |}.
Definition log (e : event) (w : world) : world :=
  {| files := files w; cwd_writable := cwd_writable w; figs := figs w; trace := trace w ++ [e] |}.

(** A process starts with no figure and no effect. *)
Definition boot (fs : gmap string file) (cw : bool) : world :=
  {| files := fs; cwd_writable := cw; figs := []; trace := [] |}.

(** ** Statements: state passing with uncaught exceptions

    The script has no [try]: the first exception ends the run, and the
    statements after it are not executed. *)

Definition py (A : Type) : Type := world → outcome A * world.

Definition py_ret {A} (a : A) : py A := λ w, (Done a, w).
Definition py_bind {A B} (k : A → py B) (m : py A) : py B := λ w,
  match m w with
  | (Done a, w') => k a w'
  | (Raise e, w') => (Raise e, w')
  | (Unmodelled, w') => (Unmodelled, w')
  end.

#[global] Instance py_mret : MRet py := @py_ret.
#[global] Instance py_mbind : MBind py := @py_bind.

(** ** Text utilities *)

Definition LF : ascii := "010"%char.
Definition CR : ascii := "013"%char.

(** [str.split(sep)]: the pieces between the separators, always at least one. *)
Fixpoint split_on (sep : ascii) (s : string) : list string :=
  match s with
  | EmptyString => [EmptyString]
  | String c rest =>
      if Ascii.eqb c sep then EmptyString :: split_on sep rest
      else match split_on sep rest with
           | [] => [String c EmptyString]
           | t :: ts => String c t :: ts
           end
  end.

Definition is_letter (c : ascii) : bool :=
  let n := nat_of_ascii c in
  ((65 <=? n) && (n <=? 90) || (97 <=? n) && (n <=? 122))%nat.

Definition lower (c : ascii) : ascii :=
  let n := nat_of_ascii c in
  if ((65 <=? n) && (n <=? 90))%nat then ascii_of_nat (n + 32) else c.

Fixpoint string_forallb (p : ascii → bool) (s : string) : bool :=
  match s with
  | EmptyString => true
  | String c rest => p c && string_forallb p rest
  end.

Fixpoint string_map (f : ascii → ascii) (s : string) : string :=
  match s with
  | EmptyString => EmptyString
  | String c rest => String (f c) (string_map f rest)
  end.

Definition int64 (z : Z) : bool := ((-(2 ^ 63) <=? z) && (z <? 2 ^ 63))%Z.

(** ** Rounding to binary64

    [nearest q] is the binary64 nearest to [q], ties to the even
    significand, as the rational it equals.  It is used for magnitudes
    between 1e-37 and 1e37 only, where every binary64 is normal: 53
    significant bits and no overflow. *)

Definition round_half_even (n d : Z) : Z :=
  let q := (n / d)%Z in
  let r := (n mod d)%Z in
  match (2 * r ?= d)%Z with
  | Lt => q
  | Gt => (q + 1)%Z
  | Eq => if Z.even q then q else (q + 1)%Z
  end.

Definition nearest_pos (n d : Z) : Q :=
  let e0 := (Z.log2 n - Z.log2 d)%Z in
  let reaches :=
    if (0 <=? e0)%Z then (d * 2 ^ e0 <=? n)%Z else (d <=? n * 2 ^ (- e0))%Z in
  let e := if reaches then e0 else (e0 - 1)%Z in
  let s := (e - 52)%Z in
  if (0 <=? s)%Z
  then Qred (Qmake (round_half_even n (d * 2 ^ s) * 2 ^ s) 1)
  else Qred (Qmake (round_half_even (n * 2 ^ (- s)) d) (Z.to_pos (2 ^ (- s)))).

Definition nearest (q : Q) : Q :=
  match Qnum q with
  | Z0 => Qmake 0 1
  | Zpos _ => nearest_pos (Qnum q) (Zpos (Qden q))
  | Zneg p => Qopp (nearest_pos (Zpos p) (Zpos (Qden q)))
  end.

(** ** pandas *)

Module pd.

(** How the parser reads one field.  The fragment covers
    - the empty field, a missing value;
    - integer literals [-]digits within int64;
    - decimal literals [-]digits.digits of magnitude below 1e308;
    - literals with an exponent, [-]digits[.digits](e|E)[+|-]digits, of at
      most 15 digits and a power of ten between -22 and 22, the exponent
      written in at most 17 characters;
    - plain words: letters only, none of the spellings pandas gives a
      meaning of its own (missing-value markers, infinities, booleans).
    Any other field (quotes, blanks, a sign [+] before the digits, ...) is
    outside the fragment.

    An integer field carries two readings: the integer, used when the whole
    column is int64, and the binary64 the float converter makes of the same
    field, used when the column is float64. *)
Inductive token :=
  | TNA
  | TInt (z : Z) (x : f64)
  | TDec (x : f64)
  | TWord.

Definition reserved : list string :=
  ["na"; "null"; "nan"; "none"; "inf"; "infinity"; "true"; "false"].

Definition plain_word (s : string) : bool :=
  negb (String.eqb s "") && string_forallb is_letter s
  && negb (existsb (String.eqb (string_map lower s)) reserved).

(** The value of [i.f], as the standard reading of a decimal numeral. *)
Definition decimal_value (i : Decimal.int) (f : Decimal.uint) : Q :=
  Qmake (Z.of_int (Decimal.app_int i f))
        (Nat.iter (Decimal.nb_digits f) (Pos.mul 10) 1%positive).

(** Magnitudes below 1e308 stay finite in binary64; larger ones, which may
    overflow to infinity, are left out of the fragment. *)
Definition finite (q : Q) : bool :=
  (Z.abs (Qnum q) <? 10 ^ 308 * Z.pos (Qden q))%Z.

(** The value of [i.f] times ten to the [x]. *)
Definition scaled_value (i : Decimal.int) (f : Decimal.uint) (x : Z) : Q :=
  let m := Z.of_int (Decimal.app_int i f) in
  let k := (x - Z.of_nat (Decimal.nb_digits f))%Z in
  if (0 <=? k)%Z then Qmake (m * 10 ^ k) 1 else Qmake m (Z.to_pos (10 ^ (- k))).

(** The number of digits written in [i.f], leading zeros included. *)
Definition digit_count (i : Decimal.int) (f : Decimal.uint) : nat :=
  match i with
  | Decimal.Pos d => Decimal.nb_digits d + Decimal.nb_digits f
  | Decimal.Neg d => Decimal.nb_digits d + Decimal.nb_digits f
  end.

(** The float converter.  It gathers the digits in a binary64 and scales by
    a power of ten once.  Up to 15 digits the gathered integer is exact
    (below 2^53), as is the power of ten (at most 1e22), so the one
    multiplication or division gives the binary64 nearest to the numeral.
    Beyond 15 digits the result is left as [Conv]. *)
Definition to_f64 (n : nat) (q : Q) : f64 :=
  if (n <=? 15)%nat then B64 (nearest q) else Conv q.

(** For an integer of up to 15 digits the nearest binary64 is the integer. *)
Definition int_to_f64 (n : nat) (z : Z) : f64 :=
  if (n <=? 15)%nat then B64 (inject_Z z) else Conv (inject_Z z).

(** The digits before the exponent: [-]digits or [-]digits.digits. *)
Definition mantissa_of (s : string) : option (Decimal.int * Decimal.uint) :=
  match split_on "." s with
  | [ip] => i ← NilZero.int_of_string ip; Some (i, Decimal.Nil)
  | [ip; fp] =>
      i ← NilZero.int_of_string ip;
      f ← NilZero.uint_of_string fp;
      Some (i, f)
  | _ => None
  end.

(** The exponent: [+|-]digits. *)
Definition exponent_of (s : string) : option Z :=
  match s with
  | EmptyString => None
  | String c r =>
      if Ascii.eqb c "+" then d ← NilZero.uint_of_string r; Some (Z.of_uint d)
      else d ← NilZero.int_of_string s; Some (Z.of_int d)
  end.

Definition classify (s : string) : option token :=
  if String.eqb s "" then Some TNA else
  match NilZero.int_of_string s with
  | Some d =>
      if int64 (Z.of_int d)
      then Some (TInt (Z.of_int d) (int_to_f64 (digit_count d Decimal.Nil) (Z.of_int d)))
      else None
  | None =>
      if string_forallb is_letter s then
        if plain_word s then Some TWord else None
      else
        match split_on "e" (string_map lower s) with
        | [m] =>
            match split_on "." m with
            | [ip; fp] =>
                match NilZero.int_of_string ip, NilZero.uint_of_string fp with
                | Some i, Some f =>
                    if finite (decimal_value i f)
                    then Some (TDec (to_f64 (digit_count i f) (decimal_value i f)))
                    else None
                | _, _ => None
                end
            | _ => None
            end
        | [m; x] =>
            match mantissa_of m, exponent_of x with
            | Some (i, f), Some e =>
                if (digit_count i f <=? 15)%nat
                   && (Z.abs (e - Z.of_nat (Decimal.nb_digits f)) <=? 22)%Z
                   && (String.length x <=? 17)%nat
                then Some (TDec (B64 (nearest (scaled_value i f e))))
                else None
            | _, _ => None
            end
        | _ => None
        end
  end.

Definition is_int (t : token) : bool :=
  match t with TInt _ _ => true | _ => false end.
Definition is_numeric (t : token) : bool :=
  match t with TWord => false | _ => true end.

Definition int_of (t : token) : Z :=
  match t with TInt z _ => z | _ => 0%Z end.
Definition float_of (t : token) : option f64 :=
  match t with
  | TInt _ x => Some x
  | TDec x => Some x
  | _ => None
  end.
Definition object_of (rt : string * token) : option string :=
  match rt.2 with TNA => None | _ => Some rt.1 end.

(** Type inference for one column, in the parser's order: int64 when every
    field is an integer, float64 when every field is a number or missing,
    otherwise the fields stay strings.  A column without rows is [object]. *)
Definition infer (col : list (string * token)) : Series :=
  match col with
  | [] => Object []
  | _ =>
      if forallb (λ rt, is_int rt.2) col then Int64 (map (λ rt, int_of rt.2) col)
      else if forallb (λ rt, is_numeric rt.2) col
           then Float64 (map (λ rt, float_of rt.2) col)
           else Object (map object_of col)
  end.

Definition tokens (raw : list string) : option (list (string * token)) :=
  mapM (λ s, t ← classify s; Some (s, t)) raw.

(** Field [i] of every row; a row that ends before field [i] contributes
    the empty field. *)
Definition field (i : nat) (rows : list (list string)) : list string :=
  map (λ r, nth i r "") rows.

Fixpoint build (i : nat) (names : list string) (rows : list (list string))
  : option (list (string * Series)) :=
  match names with
  | [] => Some []
  | name :: names' =>
      col ← tokens (field i rows);
      rest ← build (S i) names' rows;
      Some ((name, infer col) :: rest)
  end.

(** Line ends: a carriage return, alone or followed by a line feed, ends a
    line as a line feed does. *)
Fixpoint unix (s : string) : string :=
  match s with
  | EmptyString => EmptyString
  | String c rest =>
      if Ascii.eqb c CR then
        match rest with
        | EmptyString => String LF EmptyString
        | String c' rest' =>
            if Ascii.eqb c' LF then String LF (unix rest') else String LF (unix rest)
        end
      else String c (unix rest)
  end.

(** The records of a text: its lines, blank ones skipped
    ([skip_blank_lines=True]), each split at the commas ([sep=","]). *)
Definition records_of (s : string) : list (list string) :=
  map (split_on ",") (filter (λ l, l ≠ "") (split_on LF (unix s))).

(** Every field of every record is in the fragment. *)
Definition in_fragment (rows : list (list string)) : bool :=
  forallb (λ r, forallb (λ t, match classify t with Some _ => true | None => false end) r)
          rows.

(** The rows fit the names: no record after the first has more fields
    than there are names. *)
Definition fits (names : list string) (rows : list (list string)) : bool :=
  forallb (λ r, length r <=? length names)%nat rows.

(** [read_csv] on the text of a file, with [header=None] and the given
    [names].  The parser expects as many fields as there are names; a record
    with fewer fields is filled with missing values, and a record with more
    fields, after the first one, is an error.  Outside the fragment: no
    names at all, and a first record with more fields than names (its
    leading fields become the index). *)
Definition parse (names : list string) (s : string) : outcome DataFrame :=
  let rows := records_of s in
  match names with
  | [] => Unmodelled
  | _ =>
      if in_fragment rows then
        if (length (hd [] rows) <=? length names)%nat then
          if fits names (tl rows) then
            match build 0 names rows with
            | Some cols => Done {| columns := cols; nrows := length rows |}
            | None => Unmodelled
            end
          else Raise ParserError
        else Unmodelled
      else Unmodelled
  end.

(** [pd.read_csv(path, header=header, names=names)].  Only [header=None]
    is described. *)
Definition read_csv (path : string) (header : option nat) (names : list string)
  : py DataFrame := λ w,
  match header with
  | Some _ => (Unmodelled, w)
  | None =>
      match files w !! path with
      | None => (Raise (FileNotFoundError path), w)
      | Some f =>
          if readable f then
            match data f with
            | Text s => (parse names s, log (EvRead path) w)
            | PNG _ => (Unmodelled, log (EvRead path) w)
            end
          else (Raise (PermissionError path), w)
      end
  end.

(** The first column labelled [key]. *)
Fixpoint column_in (cols : list (string * Series)) (key : string) : option Series :=
  match cols with
  | [] => None
  | (name, s) :: cols' => if String.eqb name key then Some s else column_in cols' key
  end.

Definition column (df : DataFrame) (key : string) : option Series :=
  column_in (columns df) key.

(** [df[key]] *)
Definition getitem (df : DataFrame) (key : string) : py Series := λ w,
  match column df key with
  | Some s => (Done s, w)
  | None => (Raise (KeyError key), w)
  end.

Definition cells (s : Series) : list cell :=
  match s with
  | Int64 v => map CInt v
  | Float64 v => map (λ o, match o with Some x => CFloat x | None => CNaN end) v
  | Object v => map (λ o, match o with Some t => CStr t | None => CNaN end) v
  end.

(** The table row by row, each row in column order. *)
Fixpoint rows_of (cols : list (list cell)) (n : nat) : list (list cell) :=
  match n with
  | O => []
  | S n' => map (λ c, hd CNaN c) cols :: rows_of (map (λ c, tl c) cols) n'
  end.

Definition to_records (df : DataFrame) : list (list cell) :=
  rows_of (map (λ c, cells c.2) (columns df)) (nrows df).

End pd.

(** ** matplotlib.pyplot *)

Module plt.

Definition default_figsize : Q * Q := (6.4, 4.8)%Q.

Definition new_figure (size : Q * Q) : Figure :=
  {| figsize := size; lines := []; ax_xlabel := ""; ax_ylabel := "";
     ax_title := ""; ax_legend := None; ax_grid := false |}.

Definition add_line (l : Line2D) (f : Figure) : Figure :=
  {| figsize := figsize f; lines := lines f ++ [l]; ax_xlabel := ax_xlabel f;
     ax_ylabel := ax_ylabel f; ax_title := ax_title f;
     ax_legend := ax_legend f; ax_grid := ax_grid f |}.
Definition set_xlabel (s : string) (f : Figure) : Figure :=
  {| figsize := figsize f; lines := lines f; ax_xlabel := s;
     ax_ylabel := ax_ylabel f; ax_title := ax_title f;
     ax_legend := ax_legend f; ax_grid := ax_grid f |}.
Definition set_ylabel (s : string) (f : Figure) : Figure :=
  {| figsize := figsize f; lines := lines f; ax_xlabel := ax_xlabel f;
     ax_ylabel := s; ax_title := ax_title f;
     ax_legend := ax_legend f; ax_grid := ax_grid f |}.
Definition set_title (s : string) (f : Figure) : Figure :=
  {| figsize := figsize f; lines := lines f; ax_xlabel := ax_xlabel f;
     ax_ylabel := ax_ylabel f; ax_title := s;
     ax_legend := ax_legend f; ax_grid := ax_grid f |}.
Definition set_legend (l : list string) (f : Figure) : Figure :=
  {| figsize := figsize f; lines := lines f; ax_xlabel := ax_xlabel f;
     ax_ylabel := ax_ylabel f; ax_title := ax_title f;
     ax_legend := Some l; ax_grid := ax_grid f |}.
Definition set_grid (b : bool) (f : Figure) : Figure :=
  {| figsize := figsize f; lines := lines f; ax_xlabel := ax_xlabel f;
     ax_ylabel := ax_ylabel f; ax_title := ax_title f;
     ax_legend := ax_legend f; ax_grid := b |}.

(** The current figure and the other ones; pyplot makes a figure of the
    default size when it holds none. *)
Definition gcf (w : world) : Figure * list Figure :=
  match figs w with
  | [] => (new_figure default_figsize, [])
  | f :: others => (f, others)
  end.

Definition on_gcf (change : Figure → Figure) : py unit := λ w,
  let '(f, others) := gcf w in (Done tt, set_figs (change f :: others) w).

(** [plt.figure(figsize=size)]: a new figure, which becomes the current one. *)
Definition figure (size : Q * Q) : py unit := λ w,
  (Done tt, set_figs (new_figure size :: figs w) w).

Definition size (s : Series) : nat :=
  match s with
  | Int64 v => length v
  | Float64 v => length v
  | Object v => length v
  end.

(** Data an axis takes: numbers (NaN included), or strings only, which it
    places as categories.  Strings mixed with NaN are refused: the category
    axis takes strings only. *)
Definition drawable (s : Series) : bool :=
  match s with
  | Object v => forallb (λ o, match o with Some _ => true | None => false end) v
  | _ => true
  end.

(** [plt.plot(x, y, label=lbl)]: one more line on the current axes, holding
    the data as given. *)
Definition plot (x y : Series) (lbl : string) : py unit := λ w,
  let '(f, others) := gcf w in
  let w' := set_figs (f :: others) w in
  if drawable x && drawable y then
    if (size x =? size y)%nat then
      (Done tt, set_figs (add_line {| xdata := x; ydata := y; label := lbl |} f :: others) w)
    else (Raise (ValueError "x and y must have same first dimension"), w')
  else (Raise TypeError, w').

Definition xlabel (s : string) : py unit := on_gcf (set_xlabel s).
Definition ylabel (s : string) : py unit := on_gcf (set_ylabel s).
Definition title (s : string) : py unit := on_gcf (set_title s).

(** A line enters the legend unless its label is empty or starts with an
    underscore. *)
Definition in_legend (l : string) : bool :=
  match l with
  | EmptyString => false
  | String c _ => negb (Ascii.eqb c "_")
  end.

(** [plt.legend()] *)
Definition legend : py unit :=
  on_gcf (λ f, set_legend (filter (λ l, in_legend l = true) (map label (lines f))) f).

(** [plt.grid(b)] *)
Definition grid (b : bool) : py unit := on_gcf (set_grid b).

(** [plt.show()]: the figures are displayed in a window. *)
Definition show : py unit := λ w, (Done tt, log EvShow w).

(** [plt.savefig(path)]: the current figure is written as an image; an
    existing file is truncated and rewritten, a missing one is created. *)
Definition savefig (path : string) : py unit := λ w,
  let '(f, others) := gcf w in
  let w' := set_figs (f :: others) w in
  match files w !! path with
  | Some old =>
      if writable old then
        (Done tt, log (EvWrite path)
           (set_files (<[path := {| readable := readable old; writable := true;
                                    data := PNG f |}]> (files w)) w'))
      else (Raise (PermissionError path), w')
  | None =>
      if cwd_writable w then
        (Done tt, log (EvWrite path)
           (set_files (<[path := {| readable := true; writable := true;
                                    data := PNG f |}]> (files w)) w'))
      else (Raise (PermissionError path), w')
  end.

End plt.

(** ** The script *)

(** [# CSV laden] *)
Definition loader : py DataFrame :=
  pd.read_csv "loss.csv" None ["Epoch"; "Loss"].

(** [# Plot] *)
Definition renderer (df : DataFrame) : py unit :=
  plt.figure (8, 5)%Q;;
  x ← pd.getitem df "Epoch";
  y ← pd.getitem df "Loss";
  plt.plot x y "Training Loss";;
  plt.xlabel "Epoche";;
  plt.ylabel "Loss (Cross-Entropy)";;
  plt.title "Loss-Verlauf des Trainings";;
  plt.legend;;
  plt.grid true.

Definition writer : py unit := plt.savefig "my_plot.png".

Definition script : py unit :=
  df ← loader;
  renderer df;;
  writer.

(** ** Input files, written from their rows

    A field of the fragment, as data: what is missing, a numeral written
    [-]digits, [-]digits.digits or with an exponent, or a plain word. *)

(** How an exponent is written: [e] or [E], a [+] or not, and the digits
    with their sign. *)
Record exponent := {
  capital : bool;
  plus : bool;
  power : Decimal.int
}.

(** [Scientific i f x]: [i.f] (or [i] alone when [f] has no digit) followed
    by the exponent [x]. *)
Inductive numeral :=
  | Integer (i : Decimal.int)
  | Fraction (i : Decimal.int) (f : Decimal.uint)
  | Scientific (i : Decimal.int) (f : Decimal.uint) (x : exponent).

Inductive entry :=
  | Missing
  | Number (n : numeral)
  | Word (s : string).

(** A line of the file: blank, a row of one field, or a row of two. *)
Inductive line :=
  | Blank
  | Row1 (a : entry)
  | Row2 (a b : entry).

Definition digits (i : Decimal.int) : Decimal.uint :=
  match i with
  | Decimal.Pos d => d
  | Decimal.Neg d => d
  end.

Definition exponent_text (x : exponent) : string :=
  if plus x then String "+" (NilEmpty.string_of_int (power x))
  else NilEmpty.string_of_int (power x).

Definition numeral_ok (n : numeral) : Prop :=
  match n with
  | Integer i => digits i ≠ Decimal.Nil ∧ int64 (Z.of_int i) = true
  | Fraction i f =>
      digits i ≠ Decimal.Nil ∧ f ≠ Decimal.Nil ∧
      pd.finite (pd.decimal_value i f) = true
  | Scientific i f x =>
      digits i ≠ Decimal.Nil ∧ digits (power x) ≠ Decimal.Nil ∧
      (plus x = true → ∃ d, power x = Decimal.Pos d) ∧
      (pd.digit_count i f <=? 15)%nat = true ∧
      (Z.abs (Z.of_int (power x) - Z.of_nat (Decimal.nb_digits f)) <=? 22)%Z = true ∧
      (String.length (exponent_text x) <=? 17)%nat = true
  end.

Definition entry_ok (e : entry) : Prop :=
  match e with
  | Missing => True
  | Number n => numeral_ok n
  | Word s => pd.plain_word s = true
  end.

Definition line_ok (l : line) : Prop :=
  match l with
  | Blank => True
  | Row1 a => entry_ok a ∧ a ≠ Missing
  | Row2 a b => entry_ok a ∧ entry_ok b
  end.

Definition mantissa_text (i : Decimal.int) (f : Decimal.uint) : string :=
  match f with
  | Decimal.Nil => NilEmpty.string_of_int i
  | _ => NilEmpty.string_of_int i ++ String "." (NilEmpty.string_of_uint f)
  end.

Definition numeral_text (n : numeral) : string :=
  match n with
  | Integer i => NilEmpty.string_of_int i
  | Fraction i f => NilEmpty.string_of_int i ++ String "." (NilEmpty.string_of_uint f)
  | Scientific i f x =>
      mantissa_text i f
      ++ String (if capital x then "E" else "e")%char (exponent_text x)
  end.

(** The number a numeral denotes. *)
Definition value (n : numeral) : Q :=
  match n with
  | Integer i => inject_Z (Z.of_int i)
  | Fraction i f => pd.decimal_value i f
  | Scientific i f x => pd.scaled_value i f (Z.of_int (power x))
  end.

Definition entry_text (e : entry) : string :=
  match e with
  | Missing => ""
  | Number n => numeral_text n
  | Word s => s
  end.

Definition line_text (l : line) : string :=
  match l with
  | Blank => ""
  | Row1 a => entry_text a
  | Row2 a b => entry_text a ++ String "," (entry_text b)
  end.

Fixpoint join (sep : ascii) (l : list string) : string :=
  match l with
  | [] => ""
  | [s] => s
  | s :: l' => s ++ String sep (join sep l')
  end.

(** The text of a file with the given lines, a line feed between two
    lines; a final [Blank] stands for a line feed at the end of the file. *)
Definition csv (ls : list line) : string := join LF (map line_text ls).

(** The rows among the lines, in order; a row of one field has its second
    field missing. *)
Definition row_of (l : line) : option (entry * entry) :=
  match l with
  | Blank => None
  | Row1 a => Some (a, Missing)
  | Row2 a b => Some (a, b)
  end.

Definition rows (ls : list line) : list (entry * entry) := omap row_of ls.

(** What a cell says, whatever the type of its column: the number it
    equals, the binary64 the converter made of a long numeral of value [q]
    ([IsConverted q], see [Conv]), a string, or NaN. *)
Inductive reading :=
  | IsNumber (q : Q)
  | IsConverted (q : Q)
  | IsText (s : string)
  | IsNaN.

Definition read_f64 (x : f64) : reading :=
  match x with
  | B64 q => IsNumber q
  | Conv q => IsConverted q
  end.

Definition read (c : cell) : reading :=
  match c with
  | CInt z => IsNumber (inject_Z z)
  | CFloat x => read_f64 x
  | CStr s => IsText s
  | CNaN => IsNaN
  end.

(** The binary64 a numeral is converted to in a float64 column. *)
Definition converted (n : numeral) : f64 :=
  match n with
  | Integer i => pd.int_to_f64 (pd.digit_count i Decimal.Nil) (Z.of_int i)
  | Fraction i f => pd.to_f64 (pd.digit_count i f) (pd.decimal_value i f)
  | Scientific i f x => B64 (nearest (pd.scaled_value i f (Z.of_int (power x))))
  end.

(** A numeral of at most 15 digits. *)
Definition exact (n : numeral) : bool :=
  match n with
  | Integer i => (pd.digit_count i Decimal.Nil <=? 15)%nat
  | Fraction i f => (pd.digit_count i f <=? 15)%nat
  | Scientific i f x => (pd.digit_count i f <=? 15)%nat
  end.

(** The number a numeral of at most 15 digits is read as: the integer
    itself, otherwise the binary64 nearest to the numeral. *)
Definition number (n : numeral) : Q :=
  match n with
  | Integer i => inject_Z (Z.of_int i)
  | _ => nearest (value n)
  end.

Definition is_integer (e : entry) : bool :=
  match e with Number (Integer _) => true | _ => false end.

(** A field that is not a word: a numeral, or missing. *)
Definition numeric (e : entry) : bool :=
  match e with Word _ => false | _ => true end.

(** What the cell of a field says, in a column made of the fields [col]:
    in a column of integers, the integer; in another column of numerals and
    missing fields, the binary64 the numeral is converted to; in a column
    with a word, the field as it is written.  A missing field is NaN. *)
Definition shown (col : list entry) (e : entry) : reading :=
  match e with
  | Missing => IsNaN
  | Word s => IsText s
  | Number n =>
      if forallb numeric col then
        if forallb is_integer col then IsNumber (value n)
        else read_f64 (converted n)
      else IsText (numeral_text n)
  end.

(** What a field of at most 15 digits says in a column without words. *)
Definition expected (e : entry) : reading :=
  match e with
  | Missing => IsNaN
  | Number n => IsNumber (number n)
  | Word s => IsText s
  end.

(** A field of at most 15 digits, if it is a numeral. *)
Definition exact_entry (e : entry) : bool :=
  match e with Number n => exact n | _ => true end.

Definition entry_token (e : entry) : pd.token :=
  match e with
  | Missing => pd.TNA
  | Number (Integer i) => pd.TInt (Z.of_int i) (converted (Integer i))
  | Number n => pd.TDec (converted n)
  | Word _ => pd.TWord
  end.

Definition parsed (e : entry) : string * pd.token := (entry_text e, entry_token e).

Definition fields_of (l : line) : option (list string) :=
  match l with
  | Blank => None
  | Row1 a => Some [entry_text a]
  | Row2 a b => Some [entry_text a; entry_text b]
  end.

(** Character classes used to reason about the texts. *)
Definition avoids (sep : ascii) (s : string) : bool :=
  string_forallb (λ c, negb (Ascii.eqb c sep)) s.

Definition is_digit (c : ascii) : bool :=
  let n := nat_of_ascii c in ((48 <=? n) && (n <=? 57))%nat.

Definition numeric_char (c : ascii) : bool := is_digit c || Ascii.eqb c "-".
Definition mantissa_char (c : ascii) : bool := numeric_char c || Ascii.eqb c ".".
Definition exponent_char (c : ascii) : bool := numeric_char c || Ascii.eqb c "+".
Definition field_char (c : ascii) : bool :=
  mantissa_char c || exponent_char c || is_letter c.

(** The table read from a text of well-formed lines. *)
Definition table_of (rs : list (entry * entry)) : DataFrame :=
  {| columns := [("Epoch", pd.infer (map (λ r, parsed r.1) rs));
                 ("Loss", pd.infer (map (λ r, parsed r.2) rs))];
     nrows := length rs |}.

(** The chart the renderer leaves: one line and the fixed decorations. *)
Definition chart (x y : Series) : Figure :=
  {| figsize := (8, 5)%Q;
     lines := [{| xdata := x; ydata := y; label := "Training Loss" |}];
     ax_xlabel := "Epoche";
     ax_ylabel := "Loss (Cross-Entropy)";
     ax_title := "Loss-Verlauf des Trainings";
     ax_legend := Some ["Training Loss"];
     ax_grid := true |}.

(** The input file is there, can be read, and holds the text [s]. *)
Definition input (s : string) (w : world) : Prop :=
  ∃ f, files w !! "loss.csv" = Some f ∧ readable f = true ∧ data f = Text s.

(** The input file is missing, or may not be read. *)
Definition no_input (w : world) : Prop :=
  files w !! "loss.csv" = None ∨
  ∃ f, files w !! "loss.csv" = Some f ∧ readable f = false.

(** The output file may be written: rewritten when it exists, created
    otherwise. *)
Definition can_write (path : string) (w : world) : bool :=
  match files w !! path with
  | Some f => writable f
  | None => cwd_writable w
  end.

(** A run of the program as a process of its own. *)
Definition run (fs : gmap string file) (cw : bool) : outcome unit * world :=
  script (boot fs cw).

Definition is_blank (l : line) : bool :=
  match l with Blank => true | _ => false end.

(** How a column of strings shows a field. *)
Definition as_text (e : entry) : option string :=
  match e with Missing => None | _ => Some (entry_text e) end.




(** The lines of a file that are not blank. *)
Definition data_lines (ls : list line) : list line :=
  filter (λ l, is_blank l = false) ls.

(** Lines that hold numerals only, in one field or two. *)
Definition numbers_only (l : line) : bool :=
  match l with
  | Blank => true
  | Row1 a => numeric a
  | Row2 a b => numeric a && numeric b
  end.


(** A line whose numerals have at most 15 digits. *)
Definition exact_line (l : line) : bool :=
  match l with
  | Blank => true
  | Row1 a => exact_entry a
  | Row2 a b => exact_entry a && exact_entry b
  end.


(** Some files and directories. *)
Definition txt (s : string) : file :=
  {| readable := true; writable := true; data := Text s |}.

Definition disk (s : string) : gmap string file := {[ "loss.csv" := txt s ]}.

Definition lines_of (l : list string) : string :=
  fold_right (λ t acc, t ++ String LF acc) "" l.

Definition csv3 : string := lines_of ["1,2.5"; "2,2.1"; "3,1.9"].

Definition d1 : Decimal.uint := Decimal.D1 Decimal.Nil.
Definition d2 : Decimal.uint := Decimal.D2 Decimal.Nil.
Definition d3 : Decimal.uint := Decimal.D3 Decimal.Nil.
Definition d5 : Decimal.uint := Decimal.D5 Decimal.Nil.
Definition d9 : Decimal.uint := Decimal.D9 Decimal.Nil.




(** The columns of that file: the losses are the binary64 numbers nearest
    to 2.5, 2.1 and 1.9. *)
Definition epoch3 : Series := Int64 [1; 2; 3]%Z.

Definition loss3 : Series :=
  Float64 [Some (B64 (5 # 2)%Q);
           Some (B64 (4728779608739021 # 2251799813685248)%Q);
           Some (B64 (4278419646001971 # 2251799813685248)%Q)].

Definition table3 : DataFrame :=
  {| columns := [("Epoch", epoch3); ("Loss", loss3)]; nrows := 3 |}.

(** A directory without the input, and one where it may not be read. *)
Definition locked (s : string) : gmap string file :=
  {[ "loss.csv" := {| readable := false; writable := true; data := Text s |} ]}.

Definition n1 : numeral := Integer (Decimal.Pos d1).
Definition n2 : numeral := Integer (Decimal.Pos d2).
Definition n3 : numeral := Integer (Decimal.Pos d3).
Definition l25 : numeral := Fraction (Decimal.Pos d2) d5.
Definition l21 : numeral := Fraction (Decimal.Pos d2) d1.
Definition l19 : numeral := Fraction (Decimal.Pos d1) d9.

(** Three data lines with blank lines between them and at the end. *)
Definition gappy : list line :=
  [Row2 (Number n1) (Number l25); Blank; Blank;
   Row2 (Number n2) (Number l21); Row2 (Number n3) (Number l19); Blank].

Definition gappy_text : string := lines_of ["1,2.5"; ""; ""; "2,2.1"; "3,1.9"].

(** Three data lines, the second without its loss. *)
Definition short : list line :=
  [Row2 (Number n1) (Number l25); Row1 (Number n2);
   Row2 (Number n3) (Number l19); Blank].

Definition short_text : string := lines_of ["1,2.5"; "2"; "3,1.9"].

(** One line whose first field is a word. *)
Definition wordy : list line := [Row2 (Word "abc") (Number (Fraction (Decimal.Pos d1) (Decimal.D0 Decimal.Nil)))].

Definition wordy_text : string := "abc,1.0".

Definition wordy_table : DataFrame :=
  {| columns := [("Epoch", Object [Some "abc"]); ("Loss", Float64 [Some (B64 1%Q)])];
     nrows := 1 |}.

Definition empty_table : DataFrame :=
  {| columns := [("Epoch", Object []); ("Loss", Object [])]; nrows := 0 |}.

(** A directory in which "my_plot.png" already holds something else. *)
Definition overwritten (s : string) : gmap string file :=
  <["my_plot.png" := txt "an older file"]> (disk s).

(** A directory whose output file is there and may not be written. *)
Definition sealed (s : string) : gmap string file :=
  <["my_plot.png" := {| readable := true; writable := false; data := Text "old" |}]>
    (disk s).

(** The same directory in a session that has a figure open already and an
    effect logged. *)
Definition busy (s : string) : world :=
  {| files := disk s;
     cwd_writable := true;
     figs := [plt.new_figure plt.default_figsize];
     trace := [EvShow] |}.

(** A row of any number of fields. *)
Definition long_row (es : list entry) : string := join "," (map entry_text es).

(** A column that holds a word and a missing field. *)
Definition is_missing (e : entry) : bool :=
  match e with Missing => true | _ => false end.

Definition mixed (col : list entry) : bool :=
  negb (forallb numeric col) && existsb is_missing col.

(** A file of three rows, the second with three fields. *)
Definition ragged_text : string := lines_of ["1,2.5"; "2,2.1,7"; "3,1.9"].

(** A file whose first column holds a word and a missing field. *)
Definition holed : list line :=
  [Row2 (Word "abc") (Number (Fraction (Decimal.Pos d1) (Decimal.D0 Decimal.Nil)));
   Row2 Missing (Number (Fraction (Decimal.Pos d2) (Decimal.D0 Decimal.Nil)));
   Blank].

Definition holed_text : string := lines_of ["abc,1.0"; ",2.0"].

(** * Properties *)

(** ** Splitting texts *)

Lemma string_forallb_app p s t :
  string_forallb p (s ++ t) = string_forallb p s && string_forallb p t.
Proof.
  induction s as [|c s IH]; simpl; [done|].
  by rewrite IH, andb_assoc.
Qed.

Lemma string_forallb_impl (p q : ascii → bool) s :
  (∀ c, p c = true → q c = true) →
  string_forallb p s = true → string_forallb q s = true.
Proof.
  intros Hpq. induction s as [|c s IH]; simpl; [done|].
  intros [Hc Hs]%andb_prop. rewrite (Hpq _ Hc), (IH Hs). done.
Qed.

Lemma split_on_avoids sep s : avoids sep s = true → split_on sep s = [s].
Proof.
  unfold avoids. induction s as [|c s IH]; simpl; [done|].
  intros [Hc Hs]%andb_prop. apply negb_true_iff in Hc.
  by rewrite Hc, (IH Hs).
Qed.

Lemma split_on_app sep s t :
  avoids sep s = true → split_on sep (s ++ String sep t) = s :: split_on sep t.
Proof.
  unfold avoids. induction s as [|c s IH]; simpl.
  - intros _. by rewrite Ascii.eqb_refl.
  - intros [Hc Hs]%andb_prop. apply negb_true_iff in Hc.
    by rewrite Hc, (IH Hs).
Qed.

Lemma split_on_join sep l :
  l ≠ [] → Forall (λ s, avoids sep s = true) l → split_on sep (join sep l) = l.
Proof.
  induction l as [|s l IH]; [done|]. intros _ Hall.
  apply Forall_cons in Hall as [Hs Hl].
  destruct l as [|s' l]; simpl.
  - by apply split_on_avoids.
  - rewrite (split_on_app _ _ _ Hs). f_equal. by apply IH.
Qed.

Lemma append_assoc (a b c : string) : (a ++ b) ++ c = a ++ (b ++ c).
Proof.
  induction a as [|x a IH]; [done|].
  change (String x ((a ++ b) ++ c) = String x (a ++ (b ++ c))). by f_equal.
Qed.

(** ** Characters of the fields *)

Lemma class_avoids (p : ascii → bool) sep s :
  p sep = false → string_forallb p s = true → avoids sep s = true.
Proof.
  intros Hsep. apply string_forallb_impl. intros c Hc.
  apply negb_true_iff, Ascii.eqb_neq. intros ->. congruence.
Qed.

Lemma class_lower (p : ascii → bool) s :
  (∀ c, p c = true → lower c = c) →
  string_forallb p s = true → string_map lower s = s.
Proof.
  intros Hp. induction s as [|c s IH]; [done|]. cbn [string_forallb string_map].
  intros [Hc Hs]%andb_prop. by rewrite (Hp c Hc), (IH Hs).
Qed.

Lemma string_map_app f s t : string_map f (s ++ t) = string_map f s ++ string_map f t.
Proof.
  induction s as [|c s IH]; [done|].
  change (String (f c) (string_map f (s ++ t))
          = String (f c) (string_map f s ++ string_map f t)). by f_equal.
Qed.

Lemma digits_are_digits d : string_forallb is_digit (NilEmpty.string_of_uint d) = true.
Proof. induction d; simpl; auto. Qed.

Lemma int_is_numeric i : string_forallb numeric_char (NilEmpty.string_of_int i) = true.
Proof.
  destruct i as [d|d]; simpl;
    apply (string_forallb_impl is_digit); try apply digits_are_digits;
    intros c Hc; unfold numeric_char; by rewrite Hc.
Qed.

Lemma digits_are_numeric d : string_forallb numeric_char (NilEmpty.string_of_uint d) = true.
Proof. apply (int_is_numeric (Decimal.Pos d)). Qed.

Lemma numeric_is_mantissa s :
  string_forallb numeric_char s = true → string_forallb mantissa_char s = true.
Proof.
  apply string_forallb_impl. intros c Hc. unfold mantissa_char. by rewrite Hc.
Qed.

Lemma numeric_is_exponent s :
  string_forallb numeric_char s = true → string_forallb exponent_char s = true.
Proof.
  apply string_forallb_impl. intros c Hc. unfold exponent_char. by rewrite Hc.
Qed.

Lemma mantissa_is_field s :
  string_forallb mantissa_char s = true → string_forallb field_char s = true.
Proof.
  apply string_forallb_impl. intros c Hc. unfold field_char. by rewrite Hc.
Qed.

Lemma exponent_is_field s :
  string_forallb exponent_char s = true → string_forallb field_char s = true.
Proof.
  apply string_forallb_impl. intros c Hc. unfold field_char.
  by rewrite Hc, orb_true_r.
Qed.

Lemma letters_are_field s :
  string_forallb is_letter s = true → string_forallb field_char s = true.
Proof.
  apply string_forallb_impl. intros c Hc. unfold field_char.
  by rewrite Hc, orb_true_r.
Qed.

Lemma fraction_text_chars i f :
  string_forallb mantissa_char
    (NilEmpty.string_of_int i ++ String "." (NilEmpty.string_of_uint f)) = true.
Proof.
  rewrite string_forallb_app. cbn [string_forallb].
  rewrite (numeric_is_mantissa _ (int_is_numeric i)).
  by rewrite (numeric_is_mantissa _ (digits_are_numeric f)).
Qed.

Lemma mantissa_text_chars i f : string_forallb mantissa_char (mantissa_text i f) = true.
Proof.
  unfold mantissa_text.
  destruct f; first [apply numeric_is_mantissa, int_is_numeric | apply fraction_text_chars].
Qed.

Lemma exponent_text_chars x : string_forallb exponent_char (exponent_text x) = true.
Proof.
  unfold exponent_text. destruct (plus x); cbn [string_forallb];
    by rewrite (numeric_is_exponent _ (int_is_numeric (power x))).
Qed.

Lemma plain_word_letters s :
  pd.plain_word s = true → s ≠ "" ∧ string_forallb is_letter s = true.
Proof.
  unfold pd.plain_word. intros [[Hne Hl]%andb_prop _]%andb_prop. split; [|done].
  intros ->. discriminate Hne.
Qed.

Lemma numeral_text_chars n : string_forallb field_char (numeral_text n) = true.
Proof.
  destruct n as [i|i f|i f x]; cbn [numeral_text].
  - apply mantissa_is_field, numeric_is_mantissa, int_is_numeric.
  - apply mantissa_is_field, fraction_text_chars.
  - rewrite string_forallb_app. cbn [string_forallb].
    rewrite (mantissa_is_field _ (mantissa_text_chars i f)).
    rewrite (exponent_is_field _ (exponent_text_chars x)).
    by destruct (capital x).
Qed.

Lemma entry_text_chars e : entry_ok e → string_forallb field_char (entry_text e) = true.
Proof.
  intros Hok. destruct e as [|n|s]; simpl.
  - done.
  - apply numeral_text_chars.
  - apply plain_word_letters in Hok as [_ Hs]. by apply letters_are_field.
Qed.

Lemma entry_text_avoids e sep :
  entry_ok e → field_char sep = false → avoids sep (entry_text e) = true.
Proof.
  intros Hok Hsep. apply (class_avoids field_char); [done|]. by apply entry_text_chars.
Qed.

(** ** Reading one field *)

Lemma uint_text_nonempty d : d ≠ Decimal.Nil → NilEmpty.string_of_uint d ≠ "".
Proof. by destruct d. Qed.

Lemma int_text_nonempty i : digits i ≠ Decimal.Nil → NilEmpty.string_of_int i ≠ "".
Proof. destruct i as [d|d]; simpl; [|done]. apply uint_text_nonempty. Qed.

Lemma nilzero_uint_text d :
  d ≠ Decimal.Nil → NilZero.string_of_uint d = NilEmpty.string_of_uint d.
Proof. by destruct d. Qed.

Lemma nilzero_int_text i :
  digits i ≠ Decimal.Nil → NilZero.string_of_int i = NilEmpty.string_of_int i.
Proof.
  destruct i as [d|d]; simpl; intros Hd; by rewrite nilzero_uint_text.
Qed.

Lemma read_int_text i :
  digits i ≠ Decimal.Nil →
  NilZero.int_of_string (NilEmpty.string_of_int i) = Some i.
Proof.
  intros Hd. rewrite <- (nilzero_int_text i Hd). apply NilZero.isi.
  - intros ->. by apply Hd.
  - intros ->. by apply Hd.
Qed.

Lemma read_uint_text d :
  d ≠ Decimal.Nil → NilZero.uint_of_string (NilEmpty.string_of_uint d) = Some d.
Proof.
  intros Hd. rewrite <- (nilzero_uint_text d Hd). by apply NilZero.usu.
Qed.

(** What reads as an integer is made of digits and a sign only. *)
Lemma read_int_numeric s i :
  NilZero.int_of_string s = Some i → string_forallb numeric_char s = true.
Proof.
  intros H. apply NilZero.sis in H as <-.
  destruct i as [d|d]; simpl.
  - destruct d; try done; simpl;
      apply (string_forallb_impl is_digit); try apply digits_are_digits;
      intros c Hc; unfold numeric_char; by rewrite Hc.
  - destruct d; try done; simpl;
      apply (string_forallb_impl is_digit); try apply digits_are_digits;
      intros c Hc; unfold numeric_char; by rewrite Hc.
Qed.

Lemma not_int_if_other_char s :
  string_forallb numeric_char s = false → NilZero.int_of_string s = None.
Proof.
  intros H. destruct (NilZero.int_of_string s) as [i|] eqn:E; [|done].
  apply read_int_numeric in E. congruence.
Qed.

Lemma eqb_nonempty s : s ≠ "" → String.eqb s "" = false.
Proof. intros H. by apply String.eqb_neq. Qed.

Lemma classify_integer i :
  numeral_ok (Integer i) →
  pd.classify (numeral_text (Integer i)) = Some (entry_token (Number (Integer i))).
Proof.
  intros [Hd H64]. unfold pd.classify. simpl numeral_text.
  rewrite (eqb_nonempty _ (int_text_nonempty i Hd)).
  by rewrite (read_int_text i Hd), H64.
Qed.

(** A field that starts as an integer does is not made of letters. *)
Lemma int_text_not_letters i t :
  digits i ≠ Decimal.Nil →
  string_forallb is_letter (NilEmpty.string_of_int i ++ t) = false.
Proof.
  intros Hd. pose proof (int_is_numeric i) as Hn.
  destruct (NilEmpty.string_of_int i) as [|c r] eqn:E.
  - by destruct (int_text_nonempty i Hd).
  - cbn [string_forallb] in Hn. apply andb_prop in Hn as [Hc _].
    change (String c r ++ t) with (String c (r ++ t)). cbn [string_forallb].
    assert (is_letter c = false) as ->; [|done].
    destruct (is_letter c) eqn:El; [|done]. exfalso. revert Hc El.
    by destruct c as [[] [] [] [] [] [] [] []].
Qed.

Lemma mantissa_lower c : mantissa_char c = true → lower c = c.
Proof. by destruct c as [[] [] [] [] [] [] [] []]. Qed.

Lemma exponent_lower c : exponent_char c = true → lower c = c.
Proof. by destruct c as [[] [] [] [] [] [] [] []]. Qed.

Lemma classify_fraction i f :
  numeral_ok (Fraction i f) →
  pd.classify (numeral_text (Fraction i f)) = Some (entry_token (Number (Fraction i f))).
Proof.
  intros (Hi & Hf & Hfin). unfold pd.classify. simpl numeral_text.
  rewrite eqb_nonempty.
  2:{ intros E. destruct (NilEmpty.string_of_int i); discriminate E. }
  rewrite not_int_if_other_char.
  2:{ rewrite string_forallb_app. cbn [string_forallb].
      replace (numeric_char ".") with false by reflexivity.
      by rewrite andb_false_r. }
  rewrite (int_text_not_letters i _ Hi).
  rewrite (class_lower mantissa_char _ mantissa_lower (fraction_text_chars i f)).
  rewrite (split_on_avoids "e").
  2:{ by apply (class_avoids mantissa_char), fraction_text_chars. }
  rewrite split_on_app.
  2:{ by apply (class_avoids numeric_char), int_is_numeric. }
  rewrite split_on_avoids.
  2:{ by apply (class_avoids numeric_char), digits_are_numeric. }
  by rewrite (read_int_text i Hi), (read_uint_text f Hf), Hfin.
Qed.

Lemma mantissa_of_fraction i f :
  digits i ≠ Decimal.Nil → f ≠ Decimal.Nil →
  pd.mantissa_of (NilEmpty.string_of_int i ++ String "." (NilEmpty.string_of_uint f))
  = Some (i, f).
Proof.
  intros Hi Hf. unfold pd.mantissa_of.
  rewrite split_on_app by (by apply (class_avoids numeric_char), int_is_numeric).
  rewrite split_on_avoids by (by apply (class_avoids numeric_char), digits_are_numeric).
  by rewrite (read_int_text i Hi), (read_uint_text f Hf).
Qed.

Lemma mantissa_of_text i f :
  digits i ≠ Decimal.Nil → pd.mantissa_of (mantissa_text i f) = Some (i, f).
Proof.
  intros Hi. unfold mantissa_text.
  destruct f; try (by apply mantissa_of_fraction).
  unfold pd.mantissa_of.
  rewrite split_on_avoids by (by apply (class_avoids numeric_char), int_is_numeric).
  by rewrite (read_int_text i Hi).
Qed.

Lemma int_text_no_plus i r :
  digits i ≠ Decimal.Nil → NilEmpty.string_of_int i ≠ String "+" r.
Proof.
  intros Hd E. pose proof (int_is_numeric i) as Hn. rewrite E in Hn.
  discriminate Hn.
Qed.

Lemma exponent_of_text x :
  digits (power x) ≠ Decimal.Nil →
  (plus x = true → ∃ d, power x = Decimal.Pos d) →
  pd.exponent_of (exponent_text x) = Some (Z.of_int (power x)).
Proof.
  intros Hd Hp. unfold pd.exponent_of, exponent_text.
  destruct (plus x).
  - destruct (Hp eq_refl) as [d E]. rewrite E in *. simpl in Hd.
    cbn [NilEmpty.string_of_int]. rewrite Ascii.eqb_refl.
    by rewrite (read_uint_text d Hd).
  - destruct (NilEmpty.string_of_int (power x)) as [|c r] eqn:E.
    + by destruct (int_text_nonempty _ Hd).
    + destruct (Ascii.eqb c "+") eqn:Ec.
      * apply Ascii.eqb_eq in Ec as ->. by destruct (int_text_no_plus _ r Hd).
      * rewrite <- E. by rewrite (read_int_text _ Hd).
Qed.

Lemma classify_scientific i f x :
  numeral_ok (Scientific i f x) →
  pd.classify (numeral_text (Scientific i f x))
  = Some (entry_token (Number (Scientific i f x))).
Proof.
  intros (Hi & Hx & Hp & Hcount & Hpow & Hlen). unfold pd.classify. cbn [numeral_text].
  set (mark := (if capital x then "E" else "e")%char).
  assert (lower mark = "e"%char) as Hmark by (unfold mark; by destruct (capital x)).
  assert (numeric_char mark = false) as Hnm by (unfold mark; by destruct (capital x)).
  rewrite eqb_nonempty.
  2:{ intros E. destruct (mantissa_text i f); discriminate E. }
  rewrite not_int_if_other_char.
  2:{ rewrite string_forallb_app. cbn [string_forallb].
      by rewrite Hnm, andb_false_r. }
  assert (string_forallb is_letter (mantissa_text i f ++ String mark (exponent_text x))
          = false) as ->.
  { unfold mantissa_text. destruct f; try apply (int_text_not_letters i _ Hi);
      rewrite append_assoc; apply (int_text_not_letters i _ Hi). }
  rewrite string_map_app. cbn [string_map]. rewrite Hmark.
  rewrite (class_lower mantissa_char _ mantissa_lower (mantissa_text_chars i f)).
  rewrite (class_lower exponent_char _ exponent_lower (exponent_text_chars x)).
  rewrite split_on_app.
  2:{ by apply (class_avoids mantissa_char), mantissa_text_chars. }
  rewrite split_on_avoids.
  2:{ by apply (class_avoids exponent_char), exponent_text_chars. }
  rewrite (mantissa_of_text i f Hi), (exponent_of_text x Hx Hp).
  by rewrite Hcount, Hpow, Hlen.
Qed.

Lemma letters_not_numeric s :
  s ≠ "" → string_forallb is_letter s = true → string_forallb numeric_char s = false.
Proof.
  destruct s as [|c s]; [done|]. intros _. cbn [string_forallb].
  intros [Hc _]%andb_prop.
  assert (numeric_char c = false) as ->; [|done].
  destruct (numeric_char c) eqn:E; [|done].
  exfalso. revert Hc E.
  by destruct c as [[] [] [] [] [] [] [] []].
Qed.

Lemma classify_word s : pd.plain_word s = true → pd.classify s = Some pd.TWord.
Proof.
  intros Hw. destruct (plain_word_letters s Hw) as [Hne Hl].
  unfold pd.classify. rewrite (eqb_nonempty _ Hne).
  rewrite (not_int_if_other_char _ (letters_not_numeric s Hne Hl)).
  by rewrite Hl, Hw.
Qed.

Lemma classify_entry e :
  entry_ok e → pd.classify (entry_text e) = Some (entry_token e).
Proof.
  destruct e as [|[i|i f|i f x]|s]; intros Hok.
  - done.
  - by apply classify_integer.
  - by apply classify_fraction.
  - by apply classify_scientific.
  - by apply classify_word.
Qed.

Lemma tokens_entries es :
  Forall entry_ok es → pd.tokens (map entry_text es) = Some (map parsed es).
Proof.
  unfold pd.tokens. induction 1 as [|e es He _ IH]; [done|].
  cbn [map mapM]. rewrite (classify_entry e He). simpl. by rewrite IH.
Qed.

(** ** Reading the lines *)

Lemma entry_text_nonempty e : entry_ok e → e ≠ Missing → entry_text e ≠ "".
Proof.
  destruct e as [|[i|i f|i f x]|s]; simpl; intros Hok Hne.
  - done.
  - destruct Hok as [Hd _]. by apply int_text_nonempty.
  - intros E. destruct (NilEmpty.string_of_int i); discriminate E.
  - intros E. destruct (mantissa_text i f); discriminate E.
  - by apply plain_word_letters in Hok as [? _].
Qed.

Lemma line_text_avoids l sep :
  line_ok l → field_char sep = false → sep ≠ ","%char →
  avoids sep (line_text l) = true.
Proof.
  intros Hok Hsep Hcomma. destruct l as [|a|a b]; simpl.
  - done.
  - destruct Hok as [Ha _]. by apply entry_text_avoids.
  - destruct Hok as [Ha Hb]. unfold avoids. rewrite string_forallb_app.
    cbn [string_forallb]. apply andb_true_intro; split; [|apply andb_true_intro; split].
    + by apply entry_text_avoids.
    + apply negb_true_iff, Ascii.eqb_neq. congruence.
    + by apply entry_text_avoids.
Qed.

Lemma line_text_avoids_LF l : line_ok l → avoids LF (line_text l) = true.
Proof. intros Hok. by apply line_text_avoids. Qed.

Lemma line_text_blank l : line_ok l → line_text l = "" → l = Blank.
Proof.
  destruct l as [|a|a b]; simpl.
  - done.
  - intros [Ha Hne] E. by destruct (entry_text_nonempty a Ha Hne).
  - intros _ E. destruct (entry_text a); discriminate E.
Qed.

Lemma split_line l :
  line_ok l → l ≠ Blank → Some (split_on "," (line_text l)) = fields_of l.
Proof.
  destruct l as [|a|a b]; simpl.
  - done.
  - intros [Ha _] _. rewrite split_on_avoids; [done|]. by apply entry_text_avoids.
  - intros [Ha Hb] _. rewrite split_on_app by by apply entry_text_avoids.
    rewrite split_on_avoids; [done|]. by apply entry_text_avoids.
Qed.

Lemma split_lines ls :
  Forall line_ok ls →
  map (split_on ",") (filter (λ t, t ≠ "") (map line_text ls)) = omap fields_of ls.
Proof.
  induction 1 as [|l ls Hl _ IH]; [done|].
  cbn [map].
  assert (l = Blank ∨ l ≠ Blank) as [->|Hnb] by (destruct l; [by left|by right..]).
  - simpl line_text. rewrite filter_cons_False by (intros H; by apply H).
    by rewrite IH.
  - rewrite filter_cons_True by (intros E; by apply Hnb, line_text_blank).
    cbn [map]. rewrite IH.
    pose proof (split_line l Hl Hnb) as Hs.
    destruct l as [|a|a b]; [done|..];
      cbn [line_text fields_of] in Hs |- *; injection Hs as ->; reflexivity.
Qed.

Lemma unix_id s : avoids CR s = true → pd.unix s = s.
Proof.
  unfold avoids. induction s as [|c s IH]; [done|]. cbn [string_forallb pd.unix].
  intros [Hc Hs]%andb_prop. apply negb_true_iff in Hc. by rewrite Hc, (IH Hs).
Qed.

Lemma join_avoids c sep l :
  c ≠ sep → Forall (λ s, avoids c s = true) l → avoids c (join sep l) = true.
Proof.
  intros Hc. induction 1 as [|s l Hs _ IH]; [done|].
  destruct l as [|s' l]; [done|].
  change (join sep (s :: s' :: l)) with (s ++ String sep (join sep (s' :: l))).
  unfold avoids in *. rewrite string_forallb_app. cbn [string_forallb].
  rewrite Hs, IH. simpl. rewrite andb_true_r.
  apply negb_true_iff, Ascii.eqb_neq. congruence.
Qed.

Lemma csv_avoids_CR ls : Forall line_ok ls → avoids CR (csv ls) = true.
Proof.
  intros Hok. unfold csv. apply join_avoids; [done|].
  apply Forall_map. eapply Forall_impl; [exact Hok|].
  intros l Hl. by apply line_text_avoids.
Qed.

Lemma records_of_csv ls :
  Forall line_ok ls → pd.records_of (csv ls) = omap fields_of ls.
Proof.
  intros Hok. unfold pd.records_of. rewrite (unix_id _ (csv_avoids_CR ls Hok)).
  unfold csv.
  destruct ls as [|l ls]; [done|].
  rewrite split_on_join.
  - by apply split_lines.
  - done.
  - apply Forall_map. eapply Forall_impl; [exact Hok|].
    intros l'. apply line_text_avoids_LF.
Qed.

Lemma field_0 ls : pd.field 0 (omap fields_of ls) = map (λ r, entry_text r.1) (rows ls).
Proof.
  unfold pd.field, rows. induction ls as [|[|a|a b] ls IH]; csimpl; by rewrite ?IH.
Qed.

Lemma field_1 ls : pd.field 1 (omap fields_of ls) = map (λ r, entry_text r.2) (rows ls).
Proof.
  unfold pd.field, rows. induction ls as [|[|a|a b] ls IH]; csimpl; by rewrite ?IH.
Qed.

Lemma rows_length ls : length (omap fields_of ls) = length (rows ls).
Proof.
  unfold rows. induction ls as [|[|a|a b] ls IH]; csimpl; by rewrite ?IH.
Qed.

Lemma rows_fit ls :
  forallb (λ r : list string, (length r <=? 2)%nat) (omap fields_of ls) = true.
Proof. induction ls as [|[|a|a b] ls IH]; csimpl; by rewrite ?IH. Qed.

Lemma rows_fit_first ls : (length (hd [] (omap fields_of ls)) <=? 2)%nat = true.
Proof.
  pose proof (rows_fit ls) as H. destruct (omap fields_of ls) as [|r rs]; [done|].
  simpl in H. by apply andb_prop in H as [? _].
Qed.

Lemma rows_fit_later ls : pd.fits ["Epoch"; "Loss"] (tl (omap fields_of ls)) = true.
Proof.
  pose proof (rows_fit ls) as H. unfold pd.fits.
  destruct (omap fields_of ls) as [|r rs]; [done|].
  simpl in H. by apply andb_prop in H as [_ ?].
Qed.

Lemma classified e :
  entry_ok e →
  match pd.classify (entry_text e) with Some _ => true | None => false end = true.
Proof. intros Hok. by rewrite (classify_entry e Hok). Qed.

Lemma rows_in_fragment ls :
  Forall line_ok ls → pd.in_fragment (omap fields_of ls) = true.
Proof.
  unfold pd.in_fragment. induction 1 as [|l ls Hl _ IH]; [done|].
  destruct l as [|a|a b]; csimpl.
  - exact IH.
  - destruct Hl as [Ha _]. by rewrite (classified a Ha), IH.
  - destruct Hl as [Ha Hb]. by rewrite (classified a Ha), (classified b Hb), IH.
Qed.

Lemma rows_ok ls :
  Forall line_ok ls → Forall (λ r, entry_ok r.1 ∧ entry_ok r.2) (rows ls).
Proof.
  unfold rows. induction 1 as [|l ls Hl _ IH]; [done|].
  destruct l as [|a|a b]; simpl.
  - done.
  - constructor; [|done]. simpl. by destruct Hl.
  - by constructor.
Qed.

Lemma parse_csv ls :
  Forall line_ok ls →
  pd.parse ["Epoch"; "Loss"] (csv ls) = Done (table_of (rows ls)).
Proof.
  intros Hok. unfold pd.parse. rewrite (records_of_csv ls Hok).
  rewrite (rows_in_fragment ls Hok).
  change (length ["Epoch"; "Loss"]) with 2%nat.
  rewrite rows_fit_first, rows_fit_later. cbn [pd.build].
  rewrite field_0, field_1, rows_length.
  pose proof (rows_ok ls Hok) as Hrs.
  rewrite <- (map_map (λ r : entry * entry, r.1) entry_text).
  rewrite <- (map_map (λ r : entry * entry, r.2) entry_text).
  rewrite !tokens_entries.
  - rewrite !map_map. reflexivity.
  - apply Forall_map. eapply Forall_impl; [exact Hrs|]. by intros r [? ?].
  - apply Forall_map. eapply Forall_impl; [exact Hrs|]. by intros r [? ?].
Qed.

(** ** Columns *)

Lemma infer_size col : plt.size (pd.infer col) = length col.
Proof.
  unfold pd.infer. destruct col as [|c col]; [done|].
  repeat case_match; simpl; by rewrite ?length_map.
Qed.

Lemma tokens_integer es :
  forallb (λ rt : string * pd.token, pd.is_int rt.2) (map parsed es)
  = forallb is_integer es.
Proof.
  induction es as [|e es IH]; [done|]. cbn [map forallb]. rewrite IH.
  by destruct e as [|[i|i f|i f x]|s].
Qed.

Lemma tokens_numeric es :
  forallb (λ rt : string * pd.token, pd.is_numeric rt.2) (map parsed es)
  = forallb numeric es.
Proof.
  induction es as [|e es IH]; [done|]. cbn [map forallb]. rewrite IH.
  by destruct e as [|[i|i f|i f x]|s].
Qed.

(** The column pandas makes of the fields [es]. *)
Lemma infer_parsed es :
  pd.infer (map parsed es) =
  match es with
  | [] => Object []
  | _ =>
      if forallb is_integer es then Int64 (map (λ e, pd.int_of (entry_token e)) es)
      else if forallb numeric es
           then Float64 (map (λ e, pd.float_of (entry_token e)) es)
           else Object (map as_text es)
  end.
Proof.
  unfold pd.infer. destruct es as [|e0 es0]; [done|].
  set (es := e0 :: es0). change (map parsed es) with (parsed e0 :: map parsed es0) at 1.
  cbv beta iota. rewrite tokens_integer, tokens_numeric, !map_map.
  destruct (forallb is_integer es); [done|].
  destruct (forallb numeric es); [done|].
  f_equal. apply map_ext. by intros [|[i|i f|i f x]|t].
Qed.

Lemma integers_are_numeric es :
  forallb is_integer es = true → forallb numeric es = true.
Proof.
  induction es as [|e es IH]; [done|]. simpl.
  intros [He Hes]%andb_prop. rewrite (IH Hes).
  by destruct e as [|[i|i f|i f x]|s].
Qed.

Lemma infer_shown es :
  map read (pd.cells (pd.infer (map parsed es))) = map (shown es) es.
Proof.
  rewrite infer_parsed. destruct es as [|e0 es0]; [done|].
  set (es := e0 :: es0). clearbody es.
  destruct (forallb is_integer es) eqn:Hint.
  - pose proof (integers_are_numeric es Hint) as Hnum.
    cbn [pd.cells]. rewrite !map_map. apply map_ext_in. intros e He.
    pose proof Hint as Hall. rewrite forallb_forall in Hall. specialize (Hall e He).
    destruct e as [|[i|i f|i f x]|s]; try done. cbn [shown].
    by rewrite Hnum, Hint.
  - destruct (forallb numeric es) eqn:Hnum.
    + cbn [pd.cells]. rewrite !map_map. apply map_ext_in. intros e He.
      pose proof Hnum as Hall. rewrite forallb_forall in Hall. specialize (Hall e He).
      destruct e as [|[i|i f|i f x]|s]; try done; cbn [shown]; by rewrite Hnum, Hint.
    + cbn [pd.cells]. rewrite !map_map. apply map_ext. intros e.
      destruct e as [|[i|i f|i f x]|s]; try done; cbn [shown]; by rewrite Hnum.
Qed.

Lemma infer_numbers_drawable es :
  forallb numeric es = true → plt.drawable (pd.infer (map parsed es)) = true.
Proof.
  intros Hnum. rewrite infer_parsed. destruct es as [|e0 es0]; [done|].
  rewrite Hnum. by destruct (forallb is_integer (e0 :: es0)).
Qed.

Lemma integers_have_no_word es :
  forallb numeric es = false → forallb is_integer es = false.
Proof.
  intros H. destruct (forallb is_integer es) eqn:E; [|done].
  apply integers_are_numeric in E. congruence.
Qed.

Lemma infer_words es :
  forallb numeric es = false →
  pd.infer (map parsed es) = Object (map as_text es).
Proof.
  intros Hw. rewrite infer_parsed. destruct es as [|e0 es0]; [done|].
  by rewrite (integers_have_no_word _ Hw), Hw.
Qed.

(** In a column without words, a field of at most 15 digits says the number
    it is read as, whatever else the column holds. *)
Lemma shown_expected col e :
  forallb numeric col = true → In e col → exact_entry e = true →
  shown col e = expected e.
Proof.
  intros Hnum Hin Hex. destruct e as [|n|s]; [done| |done].
  cbn [shown expected]. rewrite Hnum.
  destruct (forallb is_integer col) eqn:Hint.
  - rewrite forallb_forall in Hint. specialize (Hint _ Hin).
    by destruct n as [i|i f|i f x].
  - destruct n as [i|i f|i f x]; cbn [converted number exact_entry exact] in *.
    + unfold pd.int_to_f64. by rewrite Hex.
    + unfold pd.to_f64. by rewrite Hex.
    + done.
Qed.

(** ** Records *)

Lemma rows_of_two (c1 c2 : list cell) :
  length c1 = length c2 →
  pd.rows_of [c1; c2] (length c1) = zip_with (λ a b, [a; b]) c1 c2.
Proof.
  revert c2. induction c1 as [|a c1 IH]; intros [|b c2]; try done.
  simpl. intros [= Hlen]. f_equal. by apply IH.
Qed.

Lemma cells_length s : length (pd.cells s) = plt.size s.
Proof. destruct s; simpl; by rewrite length_map. Qed.

Lemma zip_rows (f g : entry * entry → reading) (rs : list (entry * entry))
    (c1 c2 : list cell) :
  map read c1 = map f rs →
  map read c2 = map g rs →
  map (map read) (zip_with (λ a b, [a; b]) c1 c2) = map (λ r, [f r; g r]) rs.
Proof.
  revert c1 c2. induction rs as [|r rs IH]; intros [|a c1] [|b c2]; try done.
  simpl. intros [= Ha H1] [= Hb H2]. rewrite Ha, Hb. f_equal. by apply IH.
Qed.

(** What the records of a table say, field by field. *)
Lemma records_shown rs :
  map (map read) (pd.to_records (table_of rs))
  = map (λ r, [shown (map fst rs) r.1; shown (map snd rs) r.2]) rs.
Proof.
  unfold pd.to_records, table_of. cbn [columns nrows map snd].
  rewrite <- (map_map fst parsed), <- (map_map snd parsed).
  set (c1 := pd.cells (pd.infer (map parsed (map fst rs)))).
  set (c2 := pd.cells (pd.infer (map parsed (map snd rs)))).
  assert (length c1 = length rs) as L1.
  { unfold c1. by rewrite cells_length, infer_size, !length_map. }
  assert (length c2 = length rs) as L2.
  { unfold c2. by rewrite cells_length, infer_size, !length_map. }
  rewrite <- L1. rewrite rows_of_two by congruence.
  apply (zip_rows (λ r, shown (map fst rs) r.1) (λ r, shown (map snd rs) r.2)).
  - unfold c1. by rewrite infer_shown, map_map.
  - unfold c2. by rewrite infer_shown, map_map.
Qed.

Lemma forallb_columns (p : entry → bool) (rs : list (entry * entry)) :
  forallb (λ r, p r.1 && p r.2) rs = true →
  forallb p (map fst rs) = true ∧ forallb p (map snd rs) = true.
Proof.
  induction rs as [|r rs IH]; [done|]. simpl.
  intros [[H1 H2]%andb_prop Hrs]%andb_prop. destruct (IH Hrs) as [I1 I2].
  by rewrite H1, H2, I1, I2.
Qed.

Lemma records_numbers rs :
  forallb (λ r, numeric r.1 && numeric r.2) rs = true →
  forallb (λ r, exact_entry r.1 && exact_entry r.2) rs = true →
  map (map read) (pd.to_records (table_of rs))
  = map (λ r, [expected r.1; expected r.2]) rs.
Proof.
  intros Hnum Hex. rewrite records_shown.
  destruct (forallb_columns numeric rs Hnum) as [N1 N2].
  apply map_ext_in. intros r Hr.
  rewrite forallb_forall in Hex. destruct (andb_prop _ _ (Hex r Hr)) as [E1 E2].
  rewrite (shown_expected _ _ N1), (shown_expected _ _ N2); try done.
  - apply in_map_iff. by exists r.
  - apply in_map_iff. by exists r.
Qed.

(** ** Running the statements *)

Lemma loader_input s w :
  input s w → loader w = (pd.parse ["Epoch"; "Loss"] s, log (EvRead "loss.csv") w).
Proof.
  intros (f & Hf & Hr & Hd). unfold loader, pd.read_csv. by rewrite Hf, Hr, Hd.
Qed.

Lemma loader_no_input w :
  no_input w → ∃ e, loader w = (Raise e, w).
Proof.
  unfold loader, pd.read_csv. intros [Hnone|(f & Hf & Hr)].
  - rewrite Hnone. by eexists.
  - rewrite Hf, Hr. by eexists.
Qed.

Lemma table_columns rs :
  pd.column (table_of rs) "Epoch" = Some (pd.infer (map (λ r, parsed r.1) rs)) ∧
  pd.column (table_of rs) "Loss" = Some (pd.infer (map (λ r, parsed r.2) rs)).
Proof. done. Qed.

(** The renderer on a table whose two columns can be drawn. *)
Lemma renderer_done df x y w :
  pd.column df "Epoch" = Some x → pd.column df "Loss" = Some y →
  plt.drawable x = true → plt.drawable y = true → plt.size x = plt.size y →
  renderer df w = (Done tt, set_figs (chart x y :: figs w) w).
Proof.
  intros Hx Hy Dx Dy Hsz. unfold renderer.
  unfold mbind, py_mbind, py_bind, plt.figure, pd.getitem, plt.plot.
  rewrite Hx, Hy. simpl. rewrite Dx, Dy, Hsz, Nat.eqb_refl. simpl. done.
Qed.

(** Conversely, a renderer that finishes has drawn the two columns. *)
Lemma renderer_inv df w w' :
  renderer df w = (Done tt, w') →
  ∃ x y, pd.column df "Epoch" = Some x ∧ pd.column df "Loss" = Some y ∧
         w' = set_figs (chart x y :: figs w) w.
Proof.
  unfold renderer.
  unfold mbind, py_mbind, py_bind, plt.figure, pd.getitem, plt.plot.
  destruct (pd.column df "Epoch") as [x|]; [|done].
  destruct (pd.column df "Loss") as [y|]; [|done].
  simpl. destruct (plt.drawable x && plt.drawable y); [|done].
  destruct (plt.size x =? plt.size y)%nat; [|done].
  simpl. intros [= <-]. by exists x, y.
Qed.

(** Whatever its outcome, the renderer touches the figures only. *)
Lemma renderer_frame df w :
  files (renderer df w).2 = files w ∧
  cwd_writable (renderer df w).2 = cwd_writable w ∧
  trace (renderer df w).2 = trace w.
Proof.
  unfold renderer.
  unfold mbind, py_mbind, py_bind, plt.figure, pd.getitem, plt.plot.
  destruct (pd.column df "Epoch") as [x|]; [|done].
  destruct (pd.column df "Loss") as [y|]; [|done].
  simpl. destruct (plt.drawable x && plt.drawable y); [|done].
  destruct (plt.size x =? plt.size y)%nat; done.
Qed.

Lemma writer_done w :
  can_write "my_plot.png" w = true →
  ∃ f', writer w = (Done tt, log (EvWrite "my_plot.png")
                     (set_files (<["my_plot.png" := f']> (files w))
                        (set_figs ((plt.gcf w).1 :: (plt.gcf w).2) w))) ∧
        data f' = PNG (plt.gcf w).1 ∧ writable f' = true ∧
        readable f' = match files w !! "my_plot.png" with
                      | Some old => readable old
                      | None => true
                      end.
Proof.
  unfold can_write, writer, plt.savefig. intros Hw.
  destruct (plt.gcf w) as [f others].
  destruct (files w !! "my_plot.png") as [old|].
  - rewrite Hw. by eexists.
  - rewrite Hw. by eexists.
Qed.

Lemma writer_inv w w' :
  writer w = (Done tt, w') →
  can_write "my_plot.png" w = true.
Proof.
  unfold can_write, writer, plt.savefig.
  destruct (plt.gcf w) as [f others].
  destruct (files w !! "my_plot.png") as [old|].
  - by destruct (writable old).
  - by destruct (cwd_writable w).
Qed.

Lemma loader_inv w df w1 :
  loader w = (Done df, w1) →
  ∃ s, input s w ∧ pd.parse ["Epoch"; "Loss"] s = Done df ∧
       w1 = log (EvRead "loss.csv") w.
Proof.
  unfold loader, pd.read_csv.
  destruct (files w !! "loss.csv") as [f|] eqn:Hf; [|done].
  destruct (readable f) eqn:Hr; [|done].
  destruct (data f) as [s|fig] eqn:Hd; [|done].
  intros [= Hp <-]. exists s. split; [|done]. by exists f.
Qed.

(** The loader reads; it writes nothing and touches no figure. *)
Lemma loader_frame w :
  files (loader w).2 = files w ∧
  cwd_writable (loader w).2 = cwd_writable w ∧
  figs (loader w).2 = figs w ∧
  (trace (loader w).2 = trace w ∨
   trace (loader w).2 = (trace w ++ [EvRead "loss.csv"])%list) ∧
  (∀ df, (loader w).1 = Done df → trace (loader w).2 = (trace w ++ [EvRead "loss.csv"])%list).
Proof.
  unfold loader, pd.read_csv.
  destruct (files w !! "loss.csv") as [f|]; [|by repeat split; auto].
  destruct (readable f); [|by repeat split; auto].
  destruct (data f); simpl; repeat split; auto.
Qed.

Lemma renderer_figs df w :
  ∃ fig, figs (renderer df w).2 = fig :: figs w.
Proof.
  unfold renderer.
  unfold mbind, py_mbind, py_bind, plt.figure, pd.getitem, plt.plot.
  destruct (pd.column df "Epoch") as [x|]; [|by eexists].
  destruct (pd.column df "Loss") as [y|]; [|by eexists].
  simpl. destruct (plt.drawable x && plt.drawable y); [|by eexists].
  destruct (plt.size x =? plt.size y)%nat; by eexists.
Qed.

Lemma renderer_inv_drawable df w w' :
  renderer df w = (Done tt, w') →
  ∃ x y, pd.column df "Epoch" = Some x ∧ pd.column df "Loss" = Some y ∧
         plt.drawable x = true ∧ plt.drawable y = true ∧ plt.size x = plt.size y.
Proof.
  unfold renderer.
  unfold mbind, py_mbind, py_bind, plt.figure, pd.getitem, plt.plot.
  destruct (pd.column df "Epoch") as [x|]; [|done].
  destruct (pd.column df "Loss") as [y|]; [|done].
  simpl. destruct (plt.drawable x && plt.drawable y) eqn:Hd; [|done].
  destruct (plt.size x =? plt.size y)%nat eqn:Hs; [|done].
  intros _. exists x, y. apply andb_prop in Hd as [? ?].
  apply Nat.eqb_eq in Hs. done.
Qed.

(** The writer changes one file at most, and keeps the figures it found. *)
Lemma writer_frame w :
  (∀ p, p ≠ "my_plot.png" → files (writer w).2 !! p = files w !! p) ∧
  cwd_writable (writer w).2 = cwd_writable w ∧
  (figs w ≠ [] → figs (writer w).2 = figs w) ∧
  (trace (writer w).2 = trace w ∨
   trace (writer w).2 = (trace w ++ [EvWrite "my_plot.png"])%list).
Proof.
  unfold writer, plt.savefig, plt.gcf.
  assert (∀ f others, figs w = f :: others → figs w ≠ [] → f :: others = figs w) as Hfig
    by (by intros f others ->).
  destruct (figs w) as [|f others] eqn:Hfigs;
    (destruct (files w !! "my_plot.png") as [old|];
     [destruct (writable old)|destruct (cwd_writable w) eqn:Hcw]);
    simpl; repeat split; auto; try done;
    intros p Hp; by rewrite lookup_insert_ne.
Qed.

Lemma script_after_loader w df w1 :
  loader w = (Done df, w1) → script w = (renderer df;; writer) w1.
Proof.
  intros H. unfold script. unfold mbind at 1. unfold py_mbind, py_bind at 1.
  by rewrite H.
Qed.

Lemma script_loader_raises w e w1 :
  loader w = (Raise e, w1) → script w = (Raise e, w1).
Proof.
  intros H. unfold script. unfold mbind at 1. unfold py_mbind, py_bind at 1.
  by rewrite H.
Qed.

Lemma then_writer df w1 w2 :
  renderer df w1 = (Done tt, w2) → (renderer df;; writer) w1 = writer w2.
Proof.
  intros H. unfold mbind at 1. unfold py_mbind, py_bind at 1. by rewrite H.
Qed.

(** A run on a table with two columns that can be drawn, with an output
    that can be written. *)
Lemma script_done s df x y w :
  input s w → pd.parse ["Epoch"; "Loss"] s = Done df →
  pd.column df "Epoch" = Some x → pd.column df "Loss" = Some y →
  plt.drawable x = true → plt.drawable y = true → plt.size x = plt.size y →
  can_write "my_plot.png" w = true →
  ∃ f', script w =
          (Done tt,
           {| files := <["my_plot.png" := f']> (files w);
              cwd_writable := cwd_writable w;
              figs := chart x y :: figs w;
              trace := (trace w ++ [EvRead "loss.csv"]) ++ [EvWrite "my_plot.png"] |}) ∧
        data f' = PNG (chart x y) ∧ writable f' = true ∧
        readable f' = match files w !! "my_plot.png" with
                      | Some old => readable old
                      | None => true
                      end.
Proof.
  intros Hin Hp Hx Hy Dx Dy Hsz Hw.
  pose proof (loader_input s w Hin) as Hl. rewrite Hp in Hl.
  rewrite (script_after_loader _ _ _ Hl).
  rewrite (then_writer _ _ _ (renderer_done df x y _ Hx Hy Dx Dy Hsz)).
  set (w2 := set_figs _ _).
  destruct (writer_done w2) as (f' & Hwr & Hdata & Hwf & Hrf); [done|].
  exists f'. rewrite Hwr. done.
Qed.

Lemma script_inv w w' :
  script w = (Done tt, w') →
  ∃ s df x y, input s w ∧ pd.parse ["Epoch"; "Loss"] s = Done df ∧
    pd.column df "Epoch" = Some x ∧ pd.column df "Loss" = Some y ∧
    plt.drawable x = true ∧ plt.drawable y = true ∧ plt.size x = plt.size y ∧
    can_write "my_plot.png" w = true.
Proof.
  intros H. destruct (loader w) as [[df| |] w1] eqn:Hl.
  - rewrite (script_after_loader _ _ _ Hl) in H.
    destruct (renderer df w1) as [[[]| |] w2] eqn:Hr.
    + rewrite (then_writer _ _ _ Hr) in H.
      destruct (loader_inv _ _ _ Hl) as (s & Hin & Hp & ->).
      destruct (renderer_inv_drawable _ _ _ Hr) as (x & y & Hx & Hy & Dx & Dy & Hsz).
      destruct (renderer_inv _ _ _ Hr) as (x' & y' & _ & _ & ->).
      exists s, df, x, y. repeat split; try done.
      by apply writer_inv in H.
    + unfold mbind at 1 in H. unfold py_mbind, py_bind at 1 in H. by rewrite Hr in H.
    + unfold mbind at 1 in H. unfold py_mbind, py_bind at 1 in H. by rewrite Hr in H.
  - by rewrite (script_loader_raises _ _ _ Hl) in H.
  - unfold script in H. unfold mbind at 1 in H. unfold py_mbind, py_bind at 1 in H.
    by rewrite Hl in H.
Qed.

(** * The claims *)






(** C2: the line of the chart holds the table's "Epoch" column as its x
    data and the "Loss" column as its y data, as they are: same cells, same
    order, nothing dropped. *)
Theorem chart_holds_columns (df : DataFrame) (w w' : world) :
  renderer df w = (Done tt, w') →
  ∃ x y fig,
    pd.column df "Epoch" = Some x ∧ pd.column df "Loss" = Some y ∧
    figs w' = fig :: figs w ∧
    lines fig = [{| xdata := x; ydata := y; label := "Training Loss" |}].
Proof.
  intros H. destruct (renderer_inv df w w' H) as (x & y & Hx & Hy & ->).
  by exists x, y, (chart x y).
Qed.

Lemma chart_holds_columns_example :
  renderer table3 (boot ∅ true)
  = (Done tt, set_figs [chart epoch3 loss3] (boot ∅ true)) ∧
  ∃ x y fig,
    pd.column table3 "Epoch" = Some x ∧ pd.column table3 "Loss" = Some y ∧
    figs (set_figs [chart epoch3 loss3] (boot ∅ true))
    = fig :: figs (boot ∅ true) ∧
    lines fig = [{| xdata := x; ydata := y; label := "Training Loss" |}].
Proof.
  assert (renderer table3 (boot ∅ true)
          = (Done tt, set_figs [chart epoch3 loss3]
                        (boot ∅ true))) as H by reflexivity.
  split; [exact H|].
  exact (chart_holds_columns table3 (boot ∅ true) _ H).
Defined.

(** C6: whatever the table, the figure the renderer leaves is 8 by 5 and
    carries the x label "Epoche", the y label "Loss (Cross-Entropy)", the
    title "Loss-Verlauf des Trainings", a legend with the one entry
    "Training Loss" and a visible grid. *)
Theorem fixed_decorations (df : DataFrame) (w w' : world) :
  renderer df w = (Done tt, w') →
  ∃ fig, figs w' = fig :: figs w ∧
    figsize fig = (8, 5)%Q ∧
    ax_xlabel fig = "Epoche" ∧
    ax_ylabel fig = "Loss (Cross-Entropy)" ∧
    ax_title fig = "Loss-Verlauf des Trainings" ∧
    ax_legend fig = Some ["Training Loss"] ∧
    ax_grid fig = true.
Proof.
  intros H. destruct (renderer_inv df w w' H) as (x & y & Hx & Hy & ->).
  by exists (chart x y).
Qed.

Lemma fixed_decorations_example :
  renderer table3 (boot ∅ true)
  = (Done tt, set_figs [chart epoch3 loss3] (boot ∅ true)) ∧
  ∃ fig,
    figs (set_figs [chart epoch3 loss3] (boot ∅ true))
    = fig :: figs (boot ∅ true) ∧
    figsize fig = (8, 5)%Q ∧
    ax_xlabel fig = "Epoche" ∧
    ax_ylabel fig = "Loss (Cross-Entropy)" ∧
    ax_title fig = "Loss-Verlauf des Trainings" ∧
    ax_legend fig = Some ["Training Loss"] ∧
    ax_grid fig = true.
Proof.
  assert (renderer table3 (boot ∅ true)
          = (Done tt, set_figs [chart epoch3 loss3]
                        (boot ∅ true))) as H by reflexivity.
  split; [exact H|].
  exact (fixed_decorations table3 (boot ∅ true) _ H).
Defined.

(** C7: when "loss.csv" is missing or may not be read, the loader raises;
    the exception ends the run, and the world is left as it was: no image
    is written. *)
Theorem missing_input_is_fatal (w : world) :
  no_input w →
  ∃ e, loader w = (Raise e, w) ∧ script w = (Raise e, w).
Proof.
  intros H. destruct (loader_no_input w H) as [e He].
  exists e. split; [done|]. by apply script_loader_raises.
Qed.

Lemma missing_input_is_fatal_example :
  (no_input (boot ∅ true) ∧
   ∃ e, loader (boot ∅ true) = (Raise e, boot ∅ true) ∧
        script (boot ∅ true) = (Raise e, boot ∅ true)) ∧
  (no_input (boot (locked csv3) true) ∧
   ∃ e, loader (boot (locked csv3) true) = (Raise e, boot (locked csv3) true) ∧
        script (boot (locked csv3) true) = (Raise e, boot (locked csv3) true)).
Proof.
  assert (no_input (boot ∅ true)) as H1 by (left; reflexivity).
  assert (no_input (boot (locked csv3) true)) as H2.
  { right. eexists. split; [vm_compute; reflexivity|reflexivity]. }
  split.
  - split; [exact H1|]. exact (missing_input_is_fatal (boot ∅ true) H1).
  - split; [exact H2|]. exact (missing_input_is_fatal (boot (locked csv3) true) H2).
Defined.

(** C8: the renderer only builds the figure: it leaves the files and the
    trace of effects as they are.  Over a whole run the effects are, at
    most, the read of "loss.csv" followed by the write of "my_plot.png";
    no window is shown, and no other file changes. *)
Theorem no_other_effect (df : DataFrame) (w : world) :
  (files (renderer df w).2 = files w ∧ trace (renderer df w).2 = trace w) ∧
  (∃ evs, trace (script w).2 = (trace w ++ evs)%list ∧
          (evs = [] ∨ evs = [EvRead "loss.csv"] ∨
           evs = [EvRead "loss.csv"; EvWrite "my_plot.png"]) ∧
          ¬ In EvShow evs) ∧
  (∀ p, p ≠ "my_plot.png" → files (script w).2 !! p = files w !! p).
Proof.
  split; [by destruct (renderer_frame df w) as (? & _ & ?)|].
  destruct (loader_frame w) as (Lf & _ & _ & Lt & Ld).
  assert (∀ evs, evs = [] ∨ evs = [EvRead "loss.csv"] ∨
                 evs = [EvRead "loss.csv"; EvWrite "my_plot.png"] → ¬ In EvShow evs) as Hshow.
  { intros evs [-> | [-> | ->]]; simpl; intros H; decompose [or] H; done. }
  destruct (loader w) as [[dfl| |] w1] eqn:Hl; simpl in Lf, Lt, Ld.
  - specialize (Ld dfl eq_refl). rewrite (script_after_loader _ _ _ Hl).
    destruct (renderer_frame dfl w1) as (Rf & _ & Rt).
    destruct (renderer dfl w1) as [[[]| |] w2] eqn:Hr; simpl in Rf, Rt.
    + rewrite (then_writer _ _ _ Hr).
      destruct (writer_frame w2) as (Wf & _ & _ & Wt). split.
      * destruct Wt as [Wt|Wt]; rewrite Wt, Rt, Ld.
        -- exists [EvRead "loss.csv"]. split; [done|]. split; [auto|]. apply Hshow; auto.
        -- exists [EvRead "loss.csv"; EvWrite "my_plot.png"].
           split; [by rewrite <- app_assoc|]. split; [auto|]. apply Hshow; auto.
      * intros p Hp. by rewrite (Wf p Hp), Rf, Lf.
    + unfold mbind, py_mbind, py_bind. rewrite Hr. simpl. split.
      * rewrite Rt, Ld. exists [EvRead "loss.csv"]. split; [done|]. split; [auto|]. apply Hshow; auto.
      * intros p _. by rewrite Rf, Lf.
    + unfold mbind, py_mbind, py_bind. rewrite Hr. simpl. split.
      * rewrite Rt, Ld. exists [EvRead "loss.csv"]. split; [done|]. split; [auto|]. apply Hshow; auto.
      * intros p _. by rewrite Rf, Lf.
  - rewrite (script_loader_raises _ _ _ Hl). simpl. split.
    + destruct Lt as [Lt|Lt]; rewrite Lt.
      * exists []. split; [by rewrite app_nil_r|]. split; [auto|]. apply Hshow; auto.
      * exists [EvRead "loss.csv"]. split; [done|]. split; [auto|]. apply Hshow; auto.
    + intros p _. by rewrite Lf.
  - unfold script, mbind, py_mbind, py_bind. rewrite Hl. simpl. split.
    + destruct Lt as [Lt|Lt]; rewrite Lt.
      * exists []. split; [by rewrite app_nil_r|]. split; [auto|]. apply Hshow; auto.
      * exists [EvRead "loss.csv"]. split; [done|]. split; [auto|]. apply Hshow; auto.
    + intros p _. by rewrite Lf.
Qed.

Lemma file_eq (f g : file) :
  readable f = readable g → writable f = writable g → data f = data g → f = g.
Proof. destruct f, g; simpl; by intros -> -> ->. Qed.

(** C5: a run that succeeds has written to "my_plot.png" in the working
    directory, and to no other name, the image of the chart the renderer
    made of the two columns of the loaded table.  What the file held before
    is gone; the file is there and what it holds is that image, not an
    empty file; and a second run leaves the directory as the first one
    left it. *)
Theorem image_written (w w' : world) :
  script w = (Done tt, w') →
  ∃ df x y f',
    (loader w).1 = Done df ∧
    pd.column df "Epoch" = Some x ∧ pd.column df "Loss" = Some y ∧
    figs w' = chart x y :: figs w ∧
    files w' = <["my_plot.png" := f']> (files w) ∧
    files w' !! "my_plot.png" = Some f' ∧
    data f' = PNG (chart x y) ∧
    ∀ cw, (run (files w') cw).1 = Done tt ∧ files (run (files w') cw).2 = files w'.
Proof.
  intros H.
  destruct (script_inv w w' H) as (s & df & x & y & Hin & Hp & Hx & Hy & Dx & Dy & Hsz & Hw).
  destruct (script_done s df x y w Hin Hp Hx Hy Dx Dy Hsz Hw) as (f' & Hs & Hd & Hwf & Hrf).
  rewrite Hs in H. injection H as <-. cbn [figs files].
  exists df, x, y, f'.
  split; [by rewrite (loader_input _ _ Hin), Hp|].
  split; [done|]. split; [done|]. split; [done|]. split; [done|].
  split; [by rewrite lookup_insert_eq|]. split; [done|].
  intros cw. unfold run.
  set (fs := <["my_plot.png" := f']> (files w)).
  assert (input s (boot fs cw)) as Hin2.
  { destruct Hin as (f & Hf & Hr & Hdf). exists f. split; [|done].
    cbn [files boot]. unfold fs. by rewrite lookup_insert_ne. }
  assert (can_write "my_plot.png" (boot fs cw) = true) as Hw2.
  { unfold can_write. cbn [files boot]. unfold fs. by rewrite lookup_insert_eq. }
  destruct (script_done s df x y _ Hin2 Hp Hx Hy Dx Dy Hsz Hw2) as (f2 & Hs2 & Hd2 & Hwf2 & Hrf2).
  rewrite Hs2. cbn [fst snd files boot]. split; [done|].
  cbn [files boot] in Hrf2. unfold fs in Hrf2. rewrite lookup_insert_eq in Hrf2.
  assert (f2 = f') as -> by (apply file_eq; congruence).
  unfold fs. by rewrite insert_insert_eq.
Qed.

Lemma image_written_example :
  script (boot (overwritten csv3) true)
  = (Done tt, (script (boot (overwritten csv3) true)).2) ∧
  ∃ df x y f',
    (loader (boot (overwritten csv3) true)).1 = Done df ∧
    pd.column df "Epoch" = Some x ∧ pd.column df "Loss" = Some y ∧
    figs (script (boot (overwritten csv3) true)).2
    = chart x y :: figs (boot (overwritten csv3) true) ∧
    files (script (boot (overwritten csv3) true)).2
    = <["my_plot.png" := f']> (files (boot (overwritten csv3) true)) ∧
    files (script (boot (overwritten csv3) true)).2 !! "my_plot.png" = Some f' ∧
    data f' = PNG (chart x y) ∧
    ∀ cw, (run (files (script (boot (overwritten csv3) true)).2) cw).1 = Done tt ∧
          files (run (files (script (boot (overwritten csv3) true)).2) cw).2
          = files (script (boot (overwritten csv3) true)).2.
Proof.
  assert (script (boot (overwritten csv3) true)
          = (Done tt, (script (boot (overwritten csv3) true)).2)) as H
    by (vm_compute; reflexivity).
  split; [exact H|].
  exact (image_written (boot (overwritten csv3) true) _ H).
Defined.

(** ** Blank lines and short rows *)

Lemma data_lines_rows ls : rows (data_lines ls) = rows ls.
Proof.
  unfold rows, data_lines. induction ls as [|l ls IH]; [done|].
  destruct l as [|a|a b].
  - rewrite filter_cons_False by done. csimpl. exact IH.
  - rewrite filter_cons_True by done. csimpl. by rewrite IH.
  - rewrite filter_cons_True by done. csimpl. by rewrite IH.
Qed.

Lemma data_lines_length ls : length (rows ls) = length (data_lines ls).
Proof.
  unfold rows, data_lines. induction ls as [|l ls IH]; [done|].
  destruct l as [|a|a b].
  - rewrite filter_cons_False by done. csimpl. exact IH.
  - rewrite filter_cons_True by done. csimpl. by rewrite IH.
  - rewrite filter_cons_True by done. csimpl. by rewrite IH.
Qed.

Lemma data_lines_ok ls : Forall line_ok ls → Forall line_ok (data_lines ls).
Proof.
  unfold data_lines. induction 1 as [|l ls Hl _ IH]; [done|].
  destruct l as [|a|a b].
  - by rewrite filter_cons_False.
  - rewrite filter_cons_True by done. by constructor.
  - rewrite filter_cons_True by done. by constructor.
Qed.

Lemma rows_of_length cols n : length (pd.rows_of cols n) = n.
Proof. revert cols. induction n as [|n IH]; intros cols; simpl; by rewrite ?IH. Qed.

(** C9: blank lines give no record.  The table has as many records as the
    file has lines that are not blank, and it is the table of the same
    file without its blank lines. *)
Theorem blank_lines_skipped (ls : list line) (w : world) :
  Forall line_ok ls →
  input (csv ls) w →
  ∃ df, (loader w).1 = Done df ∧
        nrows df = length (data_lines ls) ∧
        length (pd.to_records df) = length (data_lines ls) ∧
        pd.parse ["Epoch"; "Loss"] (csv (data_lines ls)) = Done df.
Proof.
  intros Hok Hin. rewrite (loader_input _ _ Hin), (parse_csv ls Hok).
  exists (table_of (rows ls)). split; [done|].
  split; [apply data_lines_length|]. split.
  - unfold pd.to_records. rewrite rows_of_length. apply data_lines_length.
  - by rewrite (parse_csv _ (data_lines_ok ls Hok)), data_lines_rows.
Qed.

Lemma blank_lines_skipped_example :
  Forall line_ok gappy ∧
  input (csv gappy) (boot (disk gappy_text) true) ∧
  ∃ df, (loader (boot (disk gappy_text) true)).1 = Done df ∧
        nrows df = 3%nat ∧
        length (pd.to_records df) = 3%nat ∧
        pd.parse ["Epoch"; "Loss"] csv3 = Done df.
Proof.
  assert (Forall line_ok gappy) as H1.
  { repeat constructor; discriminate. }
  assert (input (csv gappy) (boot (disk gappy_text) true)) as H2.
  { exists (txt gappy_text). repeat split; vm_compute; reflexivity. }
  split; [exact H1|]. split; [exact H2|].
  exact (blank_lines_skipped gappy (boot (disk gappy_text) true) H1 H2).
Defined.



Lemma numbers_only_rows ls :
  forallb numbers_only ls = true →
  forallb (λ r, numeric r.1 && numeric r.2) (rows ls) = true.
Proof.
  unfold rows. induction ls as [|[|a|a b] ls IH]; csimpl; [done|auto|..].
  - intros [Ha Hls]%andb_prop. simpl. by rewrite Ha, (IH Hls).
  - intros [Hab Hls]%andb_prop. simpl. by rewrite Hab, (IH Hls).
Qed.

Lemma exact_line_rows ls :
  forallb exact_line ls = true →
  forallb (λ r, exact_entry r.1 && exact_entry r.2) (rows ls) = true.
Proof.
  unfold rows. induction ls as [|[|a|a b] ls IH]; csimpl; [done|auto|..].
  - intros [Ha Hls]%andb_prop. simpl. by rewrite Ha, (IH Hls).
  - intros [Hab Hls]%andb_prop. simpl. by rewrite Hab, (IH Hls).
Qed.

Lemma forallb_fst rs :
  forallb (λ r : entry * entry, numeric r.1 && numeric r.2) rs = true →
  forallb numeric (map fst rs) = true ∧ forallb numeric (map snd rs) = true.
Proof. apply forallb_columns. Qed.



(** ** Fields that are not numbers, and the empty file *)

Lemma some_word ls :
  forallb numbers_only ls = false →
  forallb numeric (map fst (rows ls)) = false ∨
  forallb numeric (map snd (rows ls)) = false.
Proof.
  unfold rows. induction ls as [|l ls IH]; [done|].
  destruct l as [|a|a b]; csimpl.
  - exact IH.
  - destruct (numeric a); simpl; auto.
  - destruct (numeric a); simpl; [|auto]. destruct (numeric b); simpl; [|auto].
    exact IH.
Qed.

Lemma script_figs w : (∀ df, (loader w).1 = Done df → ∃ fig, figs (script w).2 = fig :: figs w).
Proof.
  intros df Hdf. destruct (loader w) as [r w1] eqn:Hl. simpl in Hdf. subst r.
  rewrite (script_after_loader _ _ _ Hl).
  destruct (loader_frame w) as (_ & _ & Lfig & _). rewrite Hl in Lfig. simpl in Lfig.
  destruct (renderer_figs df w1) as [fig Hfig]. rewrite Lfig in Hfig.
  exists fig. unfold mbind, py_mbind, py_bind.
  destruct (renderer df w1) as [[[]| |] w2]; simpl in *; try done.
  destruct (writer_frame w2) as (_ & _ & Wfig & _).
  rewrite Wfig; [done|]. by rewrite Hfig.
Qed.

(** C3 (as the code has it): a field that is no number does not make the
    loader fail.  The loader returns a table in which each column holding
    such a field is a column of strings, every field of the column as it is
    written in the file; one of the two columns is such a column; and the
    run goes on with the renderer, which makes its figure. *)
Theorem text_field_is_loaded (ls : list line) (w : world) :
  Forall line_ok ls →
  forallb numbers_only ls = false →
  input (csv ls) w →
  ∃ df,
    loader w = (Done df, log (EvRead "loss.csv") w) ∧
    nrows df = length (rows ls) ∧
    (forallb numeric (map fst (rows ls)) = false →
     pd.column df "Epoch" = Some (Object (map (λ r, as_text r.1) (rows ls)))) ∧
    (forallb numeric (map snd (rows ls)) = false →
     pd.column df "Loss" = Some (Object (map (λ r, as_text r.2) (rows ls)))) ∧
    (forallb numeric (map fst (rows ls)) = false ∨
     forallb numeric (map snd (rows ls)) = false) ∧
    script w = (renderer df;; writer) (log (EvRead "loss.csv") w) ∧
    ∃ fig, figs (script w).2 = fig :: figs w.
Proof.
  intros Hok Hword Hin.
  pose proof (loader_input _ _ Hin) as Hl. rewrite (parse_csv ls Hok) in Hl.
  exists (table_of (rows ls)). split; [done|]. split; [done|].
  split; [|split; [|split; [|split]]].
  - intros H. unfold pd.column, table_of; cbn [columns pd.column_in String.eqb].
    apply infer_words in H; rewrite map_map in H.
    rewrite <- (map_map fst parsed), map_map. simpl. by rewrite H, map_map.
  - intros H. unfold pd.column, table_of; cbn [columns pd.column_in String.eqb].
    apply infer_words in H; rewrite map_map in H.
    rewrite <- (map_map snd parsed), map_map. simpl. by rewrite H, map_map.
  - by apply some_word.
  - by apply script_after_loader.
  - apply (script_figs w (table_of (rows ls))). by rewrite Hl.
Qed.

Lemma text_field_is_loaded_example :
  Forall line_ok wordy ∧
  forallb numbers_only wordy = false ∧
  input (csv wordy) (boot (disk wordy_text) true) ∧
  ∃ df,
    loader (boot (disk wordy_text) true)
    = (Done df, log (EvRead "loss.csv") (boot (disk wordy_text) true)) ∧
    nrows df = 1 ∧
    (forallb numeric (map fst (rows wordy)) = false →
     pd.column df "Epoch" = Some (Object [Some "abc"])) ∧
    (forallb numeric (map snd (rows wordy)) = false →
     pd.column df "Loss" = Some (Object [Some "1.0"])) ∧
    (forallb numeric (map fst (rows wordy)) = false ∨
     forallb numeric (map snd (rows wordy)) = false) ∧
    script (boot (disk wordy_text) true)
    = (renderer df;; writer) (log (EvRead "loss.csv") (boot (disk wordy_text) true)) ∧
    ∃ fig, figs (script (boot (disk wordy_text) true)).2
           = fig :: figs (boot (disk wordy_text) true).
Proof.
  assert (Forall line_ok wordy) as H1.
  { repeat constructor; discriminate. }
  assert (forallb numbers_only wordy = false) as H2 by reflexivity.
  assert (input (csv wordy) (boot (disk wordy_text) true)) as H3.
  { exists (txt wordy_text). repeat split; vm_compute; reflexivity. }
  split; [exact H1|]. split; [exact H2|]. split; [exact H3|].
  exact (text_field_is_loaded wordy (boot (disk wordy_text) true) H1 H2 H3).
Defined.

(** C3, as the spec words it, fails on the row [abc,1.0]: the loader
    returns a table and raises nothing, the renderer and the writer run,
    and the image is written. *)
Lemma text_field_not_fatal :
  (loader (boot (disk wordy_text) true)).1 = Done wordy_table ∧
  (∀ e, (loader (boot (disk wordy_text) true)).1 ≠ Raise e) ∧
  (script (boot (disk wordy_text) true)).1 = Done tt ∧
  figs (script (boot (disk wordy_text) true)).2
  = [chart (Object [Some "abc"]) (Float64 [Some (B64 1%Q)])] ∧
  trace (script (boot (disk wordy_text) true)).2
  = [EvRead "loss.csv"; EvWrite "my_plot.png"].
Proof.
  split; [by vm_compute|]. split; [|by vm_compute].
  intros e. by vm_compute.
Qed.

(** C4 (as the code has it): an empty input file is not an error.  The
    loader returns a table without records, and when the output can be
    written the run completes: "my_plot.png" holds the chart with its
    decorations and a line without points. *)
Theorem empty_input_blank_chart (w : world) :
  input "" w →
  can_write "my_plot.png" w = true →
  ∃ f',
    (loader w).1 = Done empty_table ∧
    pd.to_records empty_table = [] ∧
    (script w).1 = Done tt ∧
    files (script w).2 !! "my_plot.png" = Some f' ∧
    data f' = PNG (chart (Object []) (Object [])).
Proof.
  intros Hin Hw.
  assert (pd.parse ["Epoch"; "Loss"] "" = Done empty_table) as Hp by reflexivity.
  destruct (script_done "" empty_table (Object []) (Object []) w Hin Hp
              eq_refl eq_refl eq_refl eq_refl eq_refl Hw) as (f' & Hs & Hd & _ & _).
  exists f'. rewrite (loader_input _ _ Hin), Hp, Hs. cbn [fst snd files].
  repeat split; try done. by rewrite lookup_insert_eq.
Qed.

Lemma empty_input_blank_chart_example :
  input "" (boot (disk "") true) ∧
  can_write "my_plot.png" (boot (disk "") true) = true ∧
  ∃ f',
    (loader (boot (disk "") true)).1 = Done empty_table ∧
    pd.to_records empty_table = [] ∧
    (script (boot (disk "") true)).1 = Done tt ∧
    files (script (boot (disk "") true)).2 !! "my_plot.png" = Some f' ∧
    data f' = PNG (chart (Object []) (Object [])).
Proof.
  assert (input "" (boot (disk "") true)) as H1.
  { exists (txt ""). repeat split; vm_compute; reflexivity. }
  assert (can_write "my_plot.png" (boot (disk "") true) = true) as H2
    by (vm_compute; reflexivity).
  split; [exact H1|]. split; [exact H2|].
  exact (empty_input_blank_chart (boot (disk "") true) H1 H2).
Defined.

(** C4, as the spec words it, fails on the empty file: no exception, a run
    that completes, an image written. *)
Lemma empty_input_not_fatal :
  (∀ e, (script (boot (disk "") true)).1 ≠ Raise e) ∧
  (script (boot (disk "") true)).1 = Done tt ∧
  trace (script (boot (disk "") true)).2
  = [EvRead "loss.csv"; EvWrite "my_plot.png"] ∧
  files (script (boot (disk "") true)).2 !! "my_plot.png"
  = Some {| readable := true; writable := true;
            data := PNG (chart (Object []) (Object [])) |}.
Proof.
  split; [intros e; by vm_compute|]. by vm_compute.
Qed.

(** * Further properties of the script *)

(** ** The shape of a loaded table *)

Lemma tokens_length raw col : pd.tokens raw = Some col → length col = length raw.
Proof.
  unfold pd.tokens. intros H. apply mapM_Some_1 in H.
  symmetry. by apply Forall2_length in H.
Qed.

Lemma field_length i rs : length (pd.field i rs) = length rs.
Proof. unfold pd.field. by rewrite length_map. Qed.

Lemma parse_shape s df :
  pd.parse ["Epoch"; "Loss"] s = Done df →
  ∃ x y, columns df = [("Epoch", x); ("Loss", y)] ∧
         plt.size x = nrows df ∧ plt.size y = nrows df.
Proof.
  unfold pd.parse.
  destruct (pd.in_fragment (pd.records_of s)); [|done].
  destruct (length (hd [] (pd.records_of s)) <=? _)%nat; [|done].
  destruct (pd.fits _ _); [|done].
  cbn [pd.build].
  destruct (pd.tokens (pd.field 0 (pd.records_of s))) as [c0|] eqn:H0; [|done].
  destruct (pd.tokens (pd.field 1 (pd.records_of s))) as [c1|] eqn:H1; [|done].
  simpl. intros [= <-]. exists (pd.infer c0), (pd.infer c1). cbn [columns nrows].
  split; [done|]. rewrite !infer_size.
  by rewrite (tokens_length _ _ H0), (tokens_length _ _ H1), !field_length.
Qed.

Lemma shape_columns df x y :
  columns df = [("Epoch", x); ("Loss", y)] →
  pd.column df "Epoch" = Some x ∧ pd.column df "Loss" = Some y.
Proof. unfold pd.column. by intros ->. Qed.

Lemma rows_of_width cols n :
  Forall (λ r : list cell, length r = length cols) (pd.rows_of cols n).
Proof.
  revert cols. induction n as [|n IH]; intros cols; simpl; [done|].
  constructor; [by rewrite length_map|].
  specialize (IH (map (λ c, tl c) cols)). by rewrite length_map in IH.
Qed.

(** X5: whatever the file holds, a table the loader returns has exactly
    the two columns "Epoch" and "Loss", both as long as the table has
    records: the keys the script looks up are there, and every record has
    two cells. *)
Theorem loaded_table_shape (w w1 : world) (df : DataFrame) :
  loader w = (Done df, w1) →
  ∃ x y, columns df = [("Epoch", x); ("Loss", y)] ∧
         pd.column df "Epoch" = Some x ∧ pd.column df "Loss" = Some y ∧
         plt.size x = nrows df ∧ plt.size y = nrows df ∧
         length (pd.to_records df) = nrows df ∧
         Forall (λ r, length r = 2%nat) (pd.to_records df).
Proof.
  intros Hl. destruct (loader_inv _ _ _ Hl) as (s & _ & Hp & _).
  destruct (parse_shape s df Hp) as (x & y & Hc & Hx & Hy).
  destruct (shape_columns df x y Hc) as [Cx Cy].
  exists x, y. repeat split; try done.
  - unfold pd.to_records. apply rows_of_length.
  - unfold pd.to_records. rewrite Hc.
    apply (rows_of_width [pd.cells x; pd.cells y]).
Qed.

Lemma loaded_table_shape_example :
  loader (boot (disk csv3) true) = (Done table3, log (EvRead "loss.csv") (boot (disk csv3) true)) ∧
  ∃ x y, columns table3 = [("Epoch", x); ("Loss", y)] ∧
         pd.column table3 "Epoch" = Some x ∧ pd.column table3 "Loss" = Some y ∧
         plt.size x = 3%nat ∧ plt.size y = 3%nat ∧
         length (pd.to_records table3) = 3%nat ∧
         Forall (λ r, length r = 2%nat) (pd.to_records table3).
Proof.
  assert (loader (boot (disk csv3) true)
          = (Done table3, log (EvRead "loss.csv") (boot (disk csv3) true))) as H
    by (vm_compute; reflexivity).
  split; [exact H|].
  exact (loaded_table_shape (boot (disk csv3) true) _ table3 H).
Defined.

(** ** Which runs fail, and how *)

Lemma writer_fails w :
  can_write "my_plot.png" w = false →
  writer w = (Raise (PermissionError "my_plot.png"),
              set_figs ((plt.gcf w).1 :: (plt.gcf w).2) w).
Proof.
  unfold can_write, writer, plt.savefig. intros Hw.
  destruct (plt.gcf w) as [f others].
  destruct (files w !! "my_plot.png") as [old|]; by rewrite Hw.
Qed.

(** X1: when the output may not be written, a run on a numeric input still
    reads the file and builds the figure, then ends with [PermissionError]
    on "my_plot.png"; the directory is as it was. *)
Theorem unwritable_output (ls : list line) (w : world) :
  Forall line_ok ls →
  forallb numbers_only ls = true →
  input (csv ls) w →
  can_write "my_plot.png" w = false →
  ∃ x y,
    script w =
      (Raise (PermissionError "my_plot.png"),
       {| files := files w;
          cwd_writable := cwd_writable w;
          figs := chart x y :: figs w;
          trace := trace w ++ [EvRead "loss.csv"] |}) ∧
    pd.column (table_of (rows ls)) "Epoch" = Some x ∧
    pd.column (table_of (rows ls)) "Loss" = Some y.
Proof.
  intros Hok Hnum Hin Hw.
  pose proof (numbers_only_rows ls Hnum) as Hrs.
  destruct (forallb_fst _ Hrs) as [N1 N2].
  set (x := pd.infer (map (λ r, parsed r.1) (rows ls))).
  set (y := pd.infer (map (λ r, parsed r.2) (rows ls))).
  assert (plt.drawable x = true) as Dx.
  { unfold x. rewrite <- (map_map fst parsed). by apply infer_numbers_drawable. }
  assert (plt.drawable y = true) as Dy.
  { unfold y. rewrite <- (map_map snd parsed). by apply infer_numbers_drawable. }
  assert (plt.size x = plt.size y) as Hsz.
  { unfold x, y. by rewrite !infer_size, !length_map. }
  exists x, y. split; [|done].
  pose proof (loader_input _ _ Hin) as Hl. rewrite (parse_csv ls Hok) in Hl.
  rewrite (script_after_loader _ _ _ Hl).
  rewrite (then_writer _ _ _
             (renderer_done (table_of (rows ls)) x y _ eq_refl eq_refl Dx Dy Hsz)).
  by rewrite writer_fails.
Qed.

Lemma unwritable_output_example :
  Forall line_ok short ∧
  forallb numbers_only short = true ∧
  input (csv short) (boot (sealed short_text) true) ∧
  can_write "my_plot.png" (boot (sealed short_text) true) = false ∧
  ∃ x y,
    script (boot (sealed short_text) true) =
      (Raise (PermissionError "my_plot.png"),
       {| files := sealed short_text;
          cwd_writable := true;
          figs := [chart x y];
          trace := [EvRead "loss.csv"] |}) ∧
    pd.column (table_of (rows short)) "Epoch" = Some x ∧
    pd.column (table_of (rows short)) "Loss" = Some y.
Proof.
  assert (Forall line_ok short) as H1.
  { repeat constructor; discriminate. }
  assert (forallb numbers_only short = true) as H2 by reflexivity.
  assert (input (csv short) (boot (sealed short_text) true)) as H3.
  { exists (txt short_text). repeat split; vm_compute; reflexivity. }
  assert (can_write "my_plot.png" (boot (sealed short_text) true) = false) as H4
    by (vm_compute; reflexivity).
  split; [exact H1|]. split; [exact H2|]. split; [exact H3|]. split; [exact H4|].
  exact (unwritable_output short (boot (sealed short_text) true) H1 H2 H3 H4).
Defined.

(** ** A row that is too long *)

Lemma split_on_nonempty sep s : split_on sep s ≠ [].
Proof.
  destruct s as [|c s]; simpl; [done|].
  destruct (Ascii.eqb c sep); [done|]. by destruct (split_on sep s).
Qed.

Lemma split_on_sep_app sep a b :
  split_on sep (a ++ String sep b) = (split_on sep a ++ split_on sep b)%list.
Proof.
  induction a as [|c a IH]; simpl.
  - by rewrite Ascii.eqb_refl.
  - destruct (Ascii.eqb c sep); [by rewrite IH|].
    rewrite IH. pose proof (split_on_nonempty sep a) as Hne.
    by destruct (split_on sep a).
Qed.

Lemma avoids_app c a b :
  avoids c a = true → avoids c b = true → c ≠ LF →
  avoids c (a ++ String LF b) = true.
Proof.
  unfold avoids. intros Ha Hb Hc. rewrite string_forallb_app. cbn [string_forallb].
  rewrite Ha, Hb, andb_true_r. cbn [andb].
  apply negb_true_iff, Ascii.eqb_neq. congruence.
Qed.

Lemma records_of_app a b :
  avoids CR a = true → avoids CR b = true →
  pd.records_of (a ++ String LF b) = (pd.records_of a ++ pd.records_of b)%list.
Proof.
  intros Ha Hb. unfold pd.records_of.
  rewrite (unix_id _ (avoids_app CR a b Ha Hb ltac:(done))), (unix_id _ Ha), (unix_id _ Hb).
  by rewrite split_on_sep_app, filter_app, map_app.
Qed.

Lemma long_row_avoids es c :
  Forall entry_ok es → field_char c = false → c ≠ ","%char →
  avoids c (long_row es) = true.
Proof.
  intros Hok Hc Hsep. unfold long_row. apply join_avoids; [done|].
  apply Forall_map. eapply Forall_impl; [exact Hok|].
  intros e He. by apply entry_text_avoids.
Qed.

Lemma join_nonempty sep a b l : join sep (a :: b :: l) ≠ "".
Proof.
  change (join sep (a :: b :: l)) with (a ++ String sep (join sep (b :: l))).
  by destruct a.
Qed.

Lemma records_of_long_row es :
  Forall entry_ok es → (2 < length es)%nat →
  pd.records_of (long_row es) = [map entry_text es].
Proof.
  intros Hok Hlen. unfold pd.records_of.
  rewrite (unix_id _ (long_row_avoids es CR Hok eq_refl ltac:(done))).
  rewrite (split_on_avoids _ _ (long_row_avoids es LF Hok eq_refl ltac:(done))).
  assert (long_row es ≠ "") as Hne.
  { unfold long_row. destruct es as [|a [|b es]]; simpl in Hlen; [lia..|].
    apply join_nonempty. }
  rewrite filter_cons_True by done. rewrite filter_nil. cbn [map]. f_equal.
  unfold long_row. apply split_on_join.
  - destruct es; [simpl in Hlen; lia|done].
  - apply Forall_map. eapply Forall_impl; [exact Hok|].
    intros e He. by apply entry_text_avoids.
Qed.

Lemma row_in_fragment es :
  Forall entry_ok es →
  forallb (λ t, match pd.classify t with Some _ => true | None => false end)
          (map entry_text es) = true.
Proof.
  induction 1 as [|e es He _ IH]; [done|]. cbn [map forallb].
  by rewrite (classified e He), IH.
Qed.

Lemma parse_long_row l1 l2 es :
  Forall line_ok l1 → Forall line_ok l2 → Forall entry_ok es →
  rows l1 ≠ [] → (2 < length es)%nat →
  pd.parse ["Epoch"; "Loss"] (csv l1 ++ String LF (long_row es ++ String LF (csv l2)))
  = Raise ParserError.
Proof.
  intros O1 O2 Oe Hne Hlen.
  pose proof (csv_avoids_CR l1 O1) as A1. pose proof (csv_avoids_CR l2 O2) as A2.
  pose proof (long_row_avoids es CR Oe eq_refl ltac:(done)) as Ae.
  unfold pd.parse.
  rewrite records_of_app by (try done; by apply avoids_app).
  rewrite records_of_app by done.
  rewrite !records_of_csv by done. rewrite (records_of_long_row es Oe Hlen).
  assert (omap fields_of l1 ≠ []) as Hne1.
  { intros E. apply Hne. apply nil_length_inv.
    by rewrite <- rows_length, E. }
  unfold pd.in_fragment. rewrite !forallb_app. cbn [forallb].
  fold (pd.in_fragment (omap fields_of l1)). fold (pd.in_fragment (omap fields_of l2)).
  rewrite !rows_in_fragment by done. rewrite (row_in_fragment es Oe). cbn [andb].
  pose proof (rows_fit_first l1) as Hfirst.
  destruct (omap fields_of l1) as [|r rs]; [done|].
  cbn [hd app tl] in *. change (length ["Epoch"; "Loss"]) with 2%nat.
  rewrite Hfirst. unfold pd.fits. rewrite forallb_app. cbn [forallb].
  rewrite length_map.
  change (length ["Epoch"; "Loss"]) with 2%nat.
  assert ((length es <=? 2)%nat = false) as -> by (apply Nat.leb_gt; lia).
  by rewrite andb_false_r.
Qed.

(** X2: a row with more than two fields, anywhere after the first row of
    the file, stops the loader: [read_csv] raises [ParserError].  The script
    ends with it after reading the file; no figure is made and nothing is
    written. *)
Theorem long_row_is_an_error (l1 l2 : list line) (es : list entry) (w : world) :
  Forall line_ok l1 → Forall line_ok l2 → Forall entry_ok es →
  rows l1 ≠ [] → (2 < length es)%nat →
  input (csv l1 ++ String LF (long_row es ++ String LF (csv l2))) w →
  loader w = (Raise ParserError, log (EvRead "loss.csv") w) ∧
  script w = (Raise ParserError, log (EvRead "loss.csv") w) ∧
  files (script w).2 = files w ∧
  figs (script w).2 = figs w.
Proof.
  intros O1 O2 Oe Hne Hlen Hin.
  pose proof (loader_input _ _ Hin) as Hl.
  rewrite (parse_long_row l1 l2 es O1 O2 Oe Hne Hlen) in Hl.
  split; [done|]. by rewrite (script_loader_raises _ _ _ Hl).
Qed.

Lemma long_row_is_an_error_example :
  Forall line_ok [Row2 (Number n1) (Number l25)] ∧
  Forall line_ok [Row2 (Number n3) (Number l19); Blank] ∧
  Forall entry_ok [Number n2; Number l21; Number (Integer (Decimal.Pos (Decimal.D7 Decimal.Nil)))] ∧
  rows [Row2 (Number n1) (Number l25)] ≠ [] ∧
  (2 < 3)%nat ∧
  input ragged_text (boot (disk ragged_text) true) ∧
  loader (boot (disk ragged_text) true)
  = (Raise ParserError, log (EvRead "loss.csv") (boot (disk ragged_text) true)) ∧
  script (boot (disk ragged_text) true)
  = (Raise ParserError, log (EvRead "loss.csv") (boot (disk ragged_text) true)) ∧
  files (script (boot (disk ragged_text) true)).2 = disk ragged_text ∧
  figs (script (boot (disk ragged_text) true)).2 = [].
Proof.
  assert (Forall line_ok [Row2 (Number n1) (Number l25)]) as H1.
  { repeat constructor; discriminate. }
  assert (Forall line_ok [Row2 (Number n3) (Number l19); Blank]) as H2.
  { repeat constructor; discriminate. }
  assert (Forall entry_ok [Number n2; Number l21;
                           Number (Integer (Decimal.Pos (Decimal.D7 Decimal.Nil)))]) as H3.
  { repeat constructor; discriminate. }
  assert (rows [Row2 (Number n1) (Number l25)] ≠ []) as H4 by discriminate.
  assert (2 < 3)%nat as H5 by lia.
  assert (input ragged_text (boot (disk ragged_text) true)) as H6.
  { exists (txt ragged_text). repeat split; vm_compute; reflexivity. }
  repeat (split; [assumption|]).
  exact (long_row_is_an_error _ _ _ (boot (disk ragged_text) true) H1 H2 H3 H4 H5 H6).
Defined.

(** ** Words next to missing fields *)

Lemma mixed_not_drawable col :
  mixed col = true →
  pd.infer (map parsed col) = Object (map as_text col) ∧
  plt.drawable (Object (map as_text col)) = false.
Proof.
  unfold mixed. intros [Hw Hm]%andb_prop. apply negb_true_iff in Hw.
  split; [by apply infer_words|]. clear Hw. simpl.
  induction col as [|e col IH]; [done|].
  cbn [existsb] in Hm. cbn [map forallb].
  destruct e as [|n|t]; [done|..]; simpl in Hm; cbn [as_text]; by apply IH.
Qed.

Lemma renderer_refuses df x y w :
  pd.column df "Epoch" = Some x → pd.column df "Loss" = Some y →
  plt.drawable x && plt.drawable y = false →
  renderer df w = (Raise TypeError, set_figs (plt.new_figure (8, 5)%Q :: figs w) w).
Proof.
  intros Hx Hy Hd. unfold renderer.
  unfold mbind, py_mbind, py_bind, plt.figure, pd.getitem, plt.plot.
  rewrite Hx, Hy. simpl. by rewrite Hd.
Qed.

(** X3: a column that holds a word and a missing field is loaded as a
    column of strings with a NaN in it, which the axis refuses: the run
    reads the file, opens the figure, and ends in [plt.plot] with
    [TypeError].  The figure is left without a line or a decoration, and
    nothing is written. *)
Theorem word_and_gap_is_an_error (ls : list line) (w : world) :
  Forall line_ok ls →
  mixed (map fst (rows ls)) || mixed (map snd (rows ls)) = true →
  input (csv ls) w →
  script w =
    (Raise TypeError,
     {| files := files w;
        cwd_writable := cwd_writable w;
        figs := plt.new_figure (8, 5)%Q :: figs w;
        trace := trace w ++ [EvRead "loss.csv"] |}).
Proof.
  intros Hok Hmix Hin.
  pose proof (loader_input _ _ Hin) as Hl. rewrite (parse_csv ls Hok) in Hl.
  rewrite (script_after_loader _ _ _ Hl).
  destruct (table_columns (rows ls)) as [Cx Cy].
  assert (plt.drawable (pd.infer (map (λ r, parsed r.1) (rows ls))) &&
          plt.drawable (pd.infer (map (λ r, parsed r.2) (rows ls))) = false) as Hd.
  { apply orb_prop in Hmix as [H|H]; apply mixed_not_drawable in H as [Hi Hn];
      rewrite map_map in Hi.
    - by rewrite Hi, Hn.
    - by rewrite Hi, Hn, andb_false_r. }
  unfold mbind at 1. unfold py_mbind, py_bind at 1.
  by rewrite (renderer_refuses _ _ _ _ Cx Cy Hd).
Qed.

Lemma word_and_gap_is_an_error_example :
  Forall line_ok holed ∧
  mixed (map fst (rows holed)) || mixed (map snd (rows holed)) = true ∧
  input (csv holed) (boot (disk holed_text) true) ∧
  script (boot (disk holed_text) true) =
    (Raise TypeError,
     {| files := disk holed_text;
        cwd_writable := true;
        figs := [plt.new_figure (8, 5)%Q];
        trace := [EvRead "loss.csv"] |}).
Proof.
  assert (Forall line_ok holed) as H1.
  { repeat constructor; discriminate. }
  assert (mixed (map fst (rows holed)) || mixed (map snd (rows holed)) = true) as H2
    by reflexivity.
  assert (input (csv holed) (boot (disk holed_text) true)) as H3.
  { exists (txt holed_text). repeat split; vm_compute; reflexivity. }
  split; [exact H1|]. split; [exact H2|]. split; [exact H3|].
  exact (word_and_gap_is_an_error holed (boot (disk holed_text) true) H1 H2 H3).
Defined.

(** ** Figures that are open already *)

(** X4: figures that pyplot holds already, and what happened before in
    the session, do not reach the image.  Of two sessions in the same
    directory, if the script ends normally in one it does in the other;
    both put the same chart on top of the figures they had and leave the
    same directory, with the image of that chart in "my_plot.png":
    [plt.figure] starts a fresh figure, and it is this figure that
    [plt.savefig] writes. *)
Theorem image_ignores_open_figures (w1 w2 : world) :
  files w1 = files w2 →
  cwd_writable w1 = cwd_writable w2 →
  (script w1).1 = Done tt →
  (script w2).1 = Done tt ∧
  files (script w2).2 = files (script w1).2 ∧
  ∃ x y f',
    figs (script w1).2 = chart x y :: figs w1 ∧
    figs (script w2).2 = chart x y :: figs w2 ∧
    files (script w2).2 !! "my_plot.png" = Some f' ∧
    data f' = PNG (chart x y).
Proof.
  intros Hf Hc H1.
  destruct (script w1) as [r w1'] eqn:Hs1. simpl in H1. subst r.
  destruct (script_inv w1 w1' Hs1)
    as (s & df & x & y & Hin1 & Hp & Hx & Hy & Dx & Dy & Hsz & Hw1).
  assert (input s w2) as Hin2.
  { destruct Hin1 as (f & ? & ? & ?). exists f. by rewrite <- Hf. }
  assert (can_write "my_plot.png" w2 = true) as Hw2.
  { unfold can_write in *. by rewrite <- Hf, <- Hc. }
  destruct (script_done s df x y w1 Hin1 Hp Hx Hy Dx Dy Hsz Hw1)
    as (f1 & E1 & D1 & W1 & R1).
  destruct (script_done s df x y w2 Hin2 Hp Hx Hy Dx Dy Hsz Hw2)
    as (f2 & E2 & D2 & W2 & R2).
  rewrite E1 in Hs1. injection Hs1 as <-. rewrite E2. cbn [fst snd files figs].
  assert (f2 = f1) as ->.
  { apply file_eq; [|congruence..]. rewrite R1, R2. by rewrite Hf. }
  split; [done|]. split; [by rewrite Hf|].
  exists x, y, f1. split; [done|]. split; [done|].
  by rewrite lookup_insert_eq.
Qed.

Lemma image_ignores_open_figures_example :
  files (boot (disk csv3) true) = files (busy csv3) ∧
  cwd_writable (boot (disk csv3) true) = cwd_writable (busy csv3) ∧
  (script (boot (disk csv3) true)).1 = Done tt ∧
  (script (busy csv3)).1 = Done tt ∧
  files (script (busy csv3)).2 = files (script (boot (disk csv3) true)).2 ∧
  ∃ x y f',
    figs (script (boot (disk csv3) true)).2 = chart x y :: figs (boot (disk csv3) true) ∧
    figs (script (busy csv3)).2 = chart x y :: figs (busy csv3) ∧
    files (script (busy csv3)).2 !! "my_plot.png" = Some f' ∧
    data f' = PNG (chart x y).
Proof.
  assert (files (boot (disk csv3) true) = files (busy csv3)) as H1 by reflexivity.
  assert (cwd_writable (boot (disk csv3) true) = cwd_writable (busy csv3)) as H2
    by reflexivity.
  assert ((script (boot (disk csv3) true)).1 = Done tt) as H3 by (vm_compute; reflexivity).
  split; [exact H1|]. split; [exact H2|]. split; [exact H3|].
  exact (image_ignores_open_figures _ _ H1 H2 H3).
Defined.

(** ** Concatenation *)

Lemma join_app sep l1 l2 :
  l1 ≠ [] → l2 ≠ [] →
  join sep (l1 ++ l2) = join sep l1 ++ String sep (join sep l2).
Proof.
  intros H1 H2. induction l1 as [|s l1 IH]; [done|].
  destruct l1 as [|s' l1].
  - simpl. by destruct l2.
  - change (join sep ((s :: s' :: l1) ++ l2))
      with (s ++ String sep (join sep ((s' :: l1) ++ l2))).
    rewrite IH by done.
    change (join sep (s :: s' :: l1)) with (s ++ String sep (join sep (s' :: l1))).
    by rewrite append_assoc.
Qed.

Lemma rows_app l1 l2 : rows (l1 ++ l2) = (rows l1 ++ rows l2)%list.
Proof. unfold rows. apply omap_app. Qed.

(** X7: two files of numerals of at most 15 digits put one after the
    other, a line feed between them, load as one table whose records are
    those of the first file followed by those of the second, each cell
    reading as it did, also where a column of integers becomes a column of
    binary64 numbers. *)
Theorem files_concatenate (l1 l2 : list line) :
  Forall line_ok l1 → Forall line_ok l2 →
  forallb numbers_only l1 = true → forallb numbers_only l2 = true →
  forallb exact_line l1 = true → forallb exact_line l2 = true →
  l1 ≠ [] → l2 ≠ [] →
  ∃ d d1 d2,
    pd.parse ["Epoch"; "Loss"] (csv l1 ++ String LF (csv l2)) = Done d ∧
    pd.parse ["Epoch"; "Loss"] (csv l1) = Done d1 ∧
    pd.parse ["Epoch"; "Loss"] (csv l2) = Done d2 ∧
    nrows d = (nrows d1 + nrows d2)%nat ∧
    map (map read) (pd.to_records d)
    = (map (map read) (pd.to_records d1) ++ map (map read) (pd.to_records d2))%list.
Proof.
  intros O1 O2 N1 N2 X1 X2 E1 E2.
  assert (csv l1 ++ String LF (csv l2) = csv (l1 ++ l2)) as ->.
  { unfold csv. rewrite map_app, join_app; [done| |]; by destruct l1, l2. }
  assert (Forall line_ok (l1 ++ l2)) as O by (by apply Forall_app).
  assert (forallb numbers_only (l1 ++ l2) = true) as N
    by (by rewrite forallb_app, N1, N2).
  assert (forallb exact_line (l1 ++ l2) = true) as X
    by (by rewrite forallb_app, X1, X2).
  exists (table_of (rows (l1 ++ l2))), (table_of (rows l1)), (table_of (rows l2)).
  rewrite !parse_csv by done. repeat split; try done.
  - cbn [nrows table_of]. by rewrite rows_app, length_app.
  - rewrite (records_numbers _ (numbers_only_rows _ N) (exact_line_rows _ X)).
    rewrite (records_numbers _ (numbers_only_rows _ N1) (exact_line_rows _ X1)).
    rewrite (records_numbers _ (numbers_only_rows _ N2) (exact_line_rows _ X2)).
    by rewrite rows_app, map_app.
Qed.

Lemma files_concatenate_example :
  Forall line_ok [Row2 (Number n1) (Number l25)] ∧
  Forall line_ok [Row2 (Number n2) (Number l21); Row1 (Number n3)] ∧
  forallb numbers_only [Row2 (Number n1) (Number l25)] = true ∧
  forallb numbers_only [Row2 (Number n2) (Number l21); Row1 (Number n3)] = true ∧
  forallb exact_line [Row2 (Number n1) (Number l25)] = true ∧
  forallb exact_line [Row2 (Number n2) (Number l21); Row1 (Number n3)] = true ∧
  [Row2 (Number n1) (Number l25)] ≠ [] ∧
  [Row2 (Number n2) (Number l21); Row1 (Number n3)] ≠ [] ∧
  ∃ d d1 d2,
    pd.parse ["Epoch"; "Loss"] ("1,2.5" ++ String LF ("2,2.1" ++ String LF "3")) = Done d ∧
    pd.parse ["Epoch"; "Loss"] "1,2.5" = Done d1 ∧
    pd.parse ["Epoch"; "Loss"] ("2,2.1" ++ String LF "3") = Done d2 ∧
    nrows d = (nrows d1 + nrows d2)%nat ∧
    map (map read) (pd.to_records d)
    = (map (map read) (pd.to_records d1) ++ map (map read) (pd.to_records d2))%list.
Proof.
  assert (Forall line_ok [Row2 (Number n1) (Number l25)]) as H1.
  { repeat constructor; discriminate. }
  assert (Forall line_ok [Row2 (Number n2) (Number l21); Row1 (Number n3)]) as H2.
  { repeat constructor; discriminate. }
  assert (forallb numbers_only [Row2 (Number n1) (Number l25)] = true) as H3
    by reflexivity.
  assert (forallb numbers_only [Row2 (Number n2) (Number l21); Row1 (Number n3)] = true)
    as H4 by reflexivity.
  assert (forallb exact_line [Row2 (Number n1) (Number l25)] = true) as H3'
    by reflexivity.
  assert (forallb exact_line [Row2 (Number n2) (Number l21); Row1 (Number n3)] = true)
    as H4' by reflexivity.
  assert ([Row2 (Number n1) (Number l25)] ≠ []) as H5 by discriminate.
  assert ([Row2 (Number n2) (Number l21); Row1 (Number n3)] ≠ []) as H6 by discriminate.
  repeat (split; [assumption|]).
  exact (files_concatenate _ _ H1 H2 H3 H4 H3' H4' H5 H6).
Defined.
